(** * sonos: discovery, zone resolution and control operations

    A shallow embedding of package [sonos] (Go) and the properties its
    specification states about it.

    The package is a thin layer over three libraries it does not contain:
    [goupnp] (device descriptions, the discovery probe, SOAP calls),
    [encoding/xml] and [log].  Their data is modelled by plain records, and
    what they answer is a parameter of the development (an [Env]); the calls
    the package makes to them are recorded, in order, in an explicit state
    that every operation threads through. *)

From Stdlib Require Import ZArith Ascii String DecimalString DecimalPos DecimalZ.
From stdpp Require Import gmap strings list.

Local Open Scope string_scope.
Local Open Scope list_scope.
Local Open Scope Z_scope.

(** ** Errors

    Go builds its errors with [fmt.Errorf]; an error is kept here as the
    format string and the arguments it was built from, so that each
    [fmt.Errorf] of the source is one term and no quoting has to be
    modelled.  [LibError] is an error produced inside a library. *)

Inductive error : Type :=
| LibError (text : string)
| Errorf (format : string) (args : list fmt_arg)
with fmt_arg : Type :=
| ArgStr (s : string)
| ArgInt (n : Z)
| ArgErr (e : error).

(** A Go pair [(value, err)]. *)
Inductive result (A : Type) : Type :=
| Ok (a : A)
| Err (e : error).
Arguments Ok {A} a.
Arguments Err {A} e.

(** ** Library data: goupnp, soap, context *)

Module goupnp.

Record Service : Type := { ServiceType : string; ControlURL : string }.

(** A device description.  [Services] lists the services the device
    advertises, in the order [VisitServices] reaches them; [UDN] stands
    for the identity of the description. *)
Record Device : Type :=
  { Manufacturer : string; UDN : string; Services : list Service }.

#[global] Instance Service_eq_dec : EqDecision Service.
Proof. solve_decision. Defined.
#[global] Instance Device_eq_dec : EqDecision Device.
Proof. solve_decision. Defined.

(** [FindService]: the advertised services of the requested type. *)
Definition FindService (device : Device) (serviceType : string) : list Service :=
  filter (λ s, ServiceType s = serviceType) (Services device).

(** One answer to the discovery probe: a root device, or the error met
    while fetching its description. *)
Inductive MaybeRootDevice : Type :=
| Probed (Location : string) (Root : Device)
| ProbeFailed (Location : string) (Err : error).

End goupnp.

Module soap.

Record SOAPClient : Type := { EndpointURL : string }.

End soap.

Definition NewSOAPClient (s : goupnp.Service) : soap.SOAPClient :=
  {| soap.EndpointURL := goupnp.ControlURL s |}.

Module av1.
Definition URN_AVTransport_1 : string := "urn:schemas-upnp-org:service:AVTransport:1".
Definition URN_ContentDirectory_1 : string := "urn:schemas-upnp-org:service:ContentDirectory:1".
End av1.

(** [context.Context]: which context it is, and whether it is done
    (cancelled, or past its deadline). *)
Record Context : Type := { ctx_label : string; ctx_done : bool }.

(** The arguments of an action and the fields of its reply, by name. *)
Abbreviation fields := (list (string * string)).

Fixpoint field (name : string) (fs : fields) : string :=
  match fs with
  | [] => ""
  | (k, v) :: rest => if String.eqb k name then v else field name rest
  end.

(** ** Effects

    The calls into the network libraries, and the lines logged. *)

Inductive Call : Type :=
| CallDiscoverDevices (searchTarget : string)
| CallPerformActionCtx (ctx : Context) (sc : soap.SOAPClient)
    (actionNamespace actionName : string) (inAction : fields).

Inductive LogLine : Type :=
| Printf (format : string) (args : list fmt_arg).

Record Effects : Type := { calls : list Call; logged : list LogLine }.

Definition no_effects : Effects := {| calls := []; logged := [] |}.

(** One entry of a DIDL-Lite listing, as [LoadSonosPlaylist] decodes it. *)
Record Container : Type := { ID : string; Title : string; Res : string }.

(** What the outside answers: the probe ([goupnp.DiscoverDevices]), an
    action ([PerformActionCtx] of a SOAP client) and the decoding of a listing
    ([xml.Unmarshal] into the [didl] of [LoadSonosPlaylist]).  A reply of the
    network may depend on the calls made before it.  [xml.Unmarshal] writes
    into its destination and returns an error or nil; [env_Unmarshal] gives
    both, the entries left in the destination and the error.  The decoder of
    [encoding/xml] appends an element to a slice as soon as it has read it, so
    the entries read before a syntax error are in the destination when the
    error is returned. *)
Record Env : Type :=
  { env_DiscoverDevices : list Call → string → result (list goupnp.MaybeRootDevice);
    env_PerformAction : list Call → Context → soap.SOAPClient → string → string →
                        fields → result fields;
    env_Unmarshal : string → list Container * option error }.

(** A computation that makes calls and logs. *)
Definition M (A : Type) : Type := Effects → A * Effects.

#[global] Instance M_ret : MRet M := λ A a fx, (a, fx).
#[global] Instance M_bind : MBind M :=
  λ A B k m fx, let '(a, fx') := m fx in k a fx'.

Definition record_call (c : Call) (fx : Effects) : Effects :=
  {| calls := calls fx ++ [c]; logged := logged fx |}.

Definition log_Printf (format : string) (args : list fmt_arg) : M unit :=
  λ fx, (tt, {| calls := calls fx; logged := logged fx ++ [Printf format args] |}).

(** ** Package sonos (the revision with the control operations) *)

Definition devPropertiesService : string :=
  "urn:schemas-upnp-org:service:DeviceProperties:1".

Record Client : Type :=
  { devices : list goupnp.Device;
    zones : gmap string (list goupnp.Device) }.

(** The handle [ZoneDevice] returns. *)
Record Device : Type := { dev : goupnp.Device }.

(** [strings.Contains]. *)
Fixpoint Contains (s substr : string) : bool :=
  String.prefix substr s ||
  match s with
  | EmptyString => false
  | String _ rest => Contains rest substr
  end.

(** [c.zones[zone]]: the value of a missing key is the nil slice. *)
Definition zone_devices (c : Client) (zone : string) : list goupnp.Device :=
  default [] (zones c !! zone).

(** *** Values the operations encode *)

(** [strconv.Itoa], and [%d] of [fmt]: the decimal digits, after a minus
    sign when the number is negative. *)
Definition Itoa (i : Z) : string := NilZero.string_of_int (Z.to_int i).

(** [%02d] of [fmt]: at least two characters, zeros added on the left. *)
Definition fmt_02d (n : Z) : string :=
  let s := Itoa n in
  if (String.length s <? 2)%nat then "0" +:+ s else s.

(** [time.Duration] is an [int64] count of nanoseconds. *)
Definition int64_wrap (z : Z) : Z := (z + 2 ^ 63) mod 2 ^ 64 - 2 ^ 63.

Definition int64_range (z : Z) : Prop := - 2 ^ 63 ≤ z < 2 ^ 63.

Module time.
Definition Nanosecond : Z := 1.
Definition Microsecond : Z := 1000 * Nanosecond.
Definition Millisecond : Z := 1000 * Microsecond.
Definition Second : Z := 1000 * Millisecond.
Definition Minute : Z := 60 * Second.
Definition Hour : Z := 60 * Minute.
End time.

(** The string [SetSleepTimer] computes in its variable [dur]. *)
Definition SetSleepTimer_dur (duration : Z) : string :=
  if 0 <? duration then
    let hh := duration ÷ time.Hour in
    let duration := int64_wrap (duration - int64_wrap (hh * time.Hour)) in
    let mm := duration ÷ time.Minute in
    let duration := int64_wrap (duration - int64_wrap (mm * time.Minute)) in
    let ss := duration ÷ time.Second in
    fmt_02d hh +:+ ":" +:+ fmt_02d mm +:+ ":" +:+ fmt_02d ss
  else "".

(** [type PlayMode int], and its six constants. *)
Abbreviation PlayMode := Z (only parsing).

Definition NormalPlayMode : PlayMode := 0.
Definition RepeatAll : PlayMode := 1.
Definition RepeatOne : PlayMode := 2.
Definition Shuffle : PlayMode := 3.
Definition ShuffleRepeat : PlayMode := 4.
Definition ShuffleRepeatOne : PlayMode := 5.

Definition playModeIDs : gmap Z string :=
  list_to_map
    [ (NormalPlayMode, "NORMAL");
      (RepeatAll, "REPEAT_ALL");
      (RepeatOne, "REPEAT_ONE");
      (Shuffle, "SHUFFLE_NOREPEAT");
      (ShuffleRepeat, "SHUFFLE");
      (ShuffleRepeatOne, "SHUFFLE_REPEAT_ONE") ].

(** [playModeIDs[mode]]: the empty string for a key that is not there. *)
Definition playModeID (mode : PlayMode) : string := default "" (playModeIDs !! mode).

(** The loop of [LoadSonosPlaylist] over the decoded entries: [uri] starts
    empty and takes the [Res] of the first entry with the title. *)
Fixpoint LoadSonosPlaylist_uri (cs : list Container) (playlistName : string) : string :=
  match cs with
  | [] => ""
  | c :: rest =>
      if String.eqb (Title c) playlistName then Res c
      else LoadSonosPlaylist_uri rest playlistName
  end.

Section Sonos.

Variable net : Env.

Definition DiscoverDevices (searchTarget : string)
  : M (result (list goupnp.MaybeRootDevice)) :=
  λ fx, (env_DiscoverDevices net (calls fx) searchTarget,
         record_call (CallDiscoverDevices searchTarget) fx).

Definition PerformActionCtx (sc : soap.SOAPClient) (ctx : Context)
    (actionNamespace actionName : string) (inAction : fields)
  : M (result fields) :=
  λ fx, (env_PerformAction net (calls fx) ctx sc actionNamespace actionName inAction,
         record_call (CallPerformActionCtx ctx sc actionNamespace actionName inAction) fx).

(** The body of the loop of [Discover], for one answer to the probe. *)
Definition Discover_visit (ctx : Context) (c : Client) (mrd : goupnp.MaybeRootDevice)
  : M Client :=
  match mrd with
  | goupnp.ProbeFailed loc e =>
      _ ← log_Printf "Probing AV1 at %s: %v" [ArgStr loc; ArgErr e];
      mret c
  | goupnp.Probed _ dev =>
      if negb (Contains (goupnp.Manufacturer dev) "Sonos, Inc.") then mret c
      else
        let c := {| devices := devices c ++ [dev]; zones := zones c |} in
        match goupnp.FindService dev devPropertiesService with
        | [] => mret c
        | svc :: _ =>
            let sc := NewSOAPClient svc in
            r ← PerformActionCtx sc ctx (goupnp.ServiceType svc) "GetZoneAttributes" [];
            match r with
            | Err e =>
                _ ← log_Printf "getting zone attributes: %v" [ArgErr e];
                mret c
            | Ok resp =>
                let zone := field "CurrentZoneName" resp in
                mret {| devices := devices c;
                        zones := <[zone := zone_devices c zone ++ [dev]]> (zones c) |}
            end
        end
  end.

Fixpoint Discover_loop (ctx : Context) (mrds : list goupnp.MaybeRootDevice) (c : Client)
  : M Client :=
  match mrds with
  | [] => mret c
  | mrd :: rest => c' ← Discover_visit ctx c mrd; Discover_loop ctx rest c'
  end.

Definition Discover (ctx : Context) : M (result Client) :=
  let c := {| devices := []; zones := ∅ |} in
  r ← DiscoverDevices devPropertiesService;
  match r with
  | Err e => mret (Err (Errorf "discovering AV1: %w" [ArgErr e]))
  | Ok mrds => c' ← Discover_loop ctx mrds c; mret (Ok c')
  end.

Definition serviceClient (dev : goupnp.Device) (serviceType : string)
  : result soap.SOAPClient :=
  match goupnp.FindService dev serviceType with
  | [] => Err (Errorf "unknown service %q for device" [ArgStr serviceType])
  | svc :: _ => Ok (NewSOAPClient svc)
  end.

Definition soap (d : Device) (ctx : Context) (serviceType action : string) (inAction : fields)
  : M (result fields) :=
  match serviceClient (dev d) serviceType with
  | Err e => mret (Err e)
  | Ok sc => PerformActionCtx sc ctx serviceType action inAction
  end.

(** The loop of [ZoneDevice]: the first device with the AV1 service. *)
Fixpoint ZoneDevice_scan (devs : list goupnp.Device) : option Device :=
  match devs with
  | [] => None
  | dev :: rest =>
      match serviceClient dev av1.URN_AVTransport_1 with
      | Err _ => ZoneDevice_scan rest
      | Ok _ => Some {| dev := dev |}
      end
  end.

Definition ZoneDevice (c : Client) (ctx : Context) (zone : string) : result Device :=
  match zones c !! zone with
  | None => Err (Errorf "unknown zone %q, or it has no devices" [ArgStr zone])
  | Some devs =>
      match ZoneDevice_scan devs with
      | Some d => Ok d
      | None => Err (Errorf "did not find an AV1 service in zone %q" [ArgStr zone])
      end
  end.

Definition Ungroup (d : Device) (ctx : Context) : M (option error) :=
  r ← soap d ctx av1.URN_AVTransport_1 "BecomeCoordinatorOfStandaloneGroup"
        [("InstanceID", "0")];
  match r with
  | Err e => mret (Some (Errorf "ungrouping: %w" [ArgErr e]))
  | Ok _ => mret None
  end.

Definition ClearQueue (d : Device) (ctx : Context) : M (option error) :=
  r ← soap d ctx av1.URN_AVTransport_1 "RemoveAllTracksFromQueue"
        [("InstanceID", "0")];
  match r with
  | Err e => mret (Some (Errorf "clearing queue: %w" [ArgErr e]))
  | Ok _ => mret None
  end.

Definition SetPlayMode (d : Device) (ctx : Context) (mode : PlayMode) : M (option error) :=
  r ← soap d ctx av1.URN_AVTransport_1 "SetPlayMode"
        [("InstanceID", "0"); ("NewPlayMode", playModeID mode)];
  match r with
  | Err e => mret (Some (Errorf "setting play mode: %w" [ArgErr e]))
  | Ok _ => mret None
  end.

Definition SetVolume (d : Device) (ctx : Context) (volume : Z) : M (option error) :=
  r ← soap d ctx "urn:schemas-upnp-org:service:RenderingControl:1" "SetVolume"
        [("InstanceID", "0"); ("Channel", "Master"); ("DesiredVolume", Itoa volume)];
  match r with
  | Err e => mret (Some (Errorf "setting volume: %w" [ArgErr e]))
  | Ok _ => mret None
  end.

Definition SetSleepTimer (d : Device) (ctx : Context) (duration : Z) : M (option error) :=
  let dur := SetSleepTimer_dur duration in
  r ← soap d ctx av1.URN_AVTransport_1 "ConfigureSleepTimer"
        [("InstanceID", "0"); ("NewSleepTimerDuration", dur)];
  match r with
  | Err e => mret (Some (Errorf "setting sleep timer: %w" [ArgErr e]))
  | Ok _ => mret None
  end.

Definition Play (d : Device) (ctx : Context) : M (option error) :=
  r ← soap d ctx av1.URN_AVTransport_1 "Play" [("InstanceID", "0"); ("Speed", "1")];
  match r with
  | Err e => mret (Some (Errorf "playing: %w" [ArgErr e]))
  | Ok _ => mret None
  end.

(** What [LoadSonosPlaylist] does once the listing is in [didl]. *)
Definition LoadSonosPlaylist_add (d : Device) (ctx : Context) (playlistName : string)
    (didl : list Container) : M (option error) :=
  let uri := LoadSonosPlaylist_uri didl playlistName in
  if decide (uri = "") then
    mret (Some (Errorf "did not find Sonos playlist named %q (checked %d)"
                  [ArgStr playlistName; ArgInt (Z.of_nat (length didl))]))
  else
    r ← soap d ctx av1.URN_AVTransport_1 "AddURIToQueue"
          [("InstanceID", "0"); ("EnqueuedURI", uri); ("EnqueuedURIMetaData", "");
           ("DesiredFirstTrackNumberEnqueued", "1"); ("EnqueueAsNext", "1")];
    match r with
    | Err e => mret (Some (Errorf "adding to queue: %w" [ArgErr e]))
    | Ok _ => mret None
    end.

Definition LoadSonosPlaylist (d : Device) (ctx : Context) (playlistName : string)
  : M (option error) :=
  r ← soap d ctx av1.URN_ContentDirectory_1 "Browse"
        [("ObjectID", "SQ:"); ("BrowseFlag", "BrowseDirectChildren"); ("Filter", "*");
         ("StartingIndex", "0"); ("RequestedCount", "100");
         ("SortCriteria", "+upnp:artist,+dc:title")];
  match r with
  | Err e => mret (Some (Errorf "browsing: %w" [ArgErr e]))
  | Ok raw =>
      (* [err] is still the one of the Browse call, nil here: what
         [xml.Unmarshal] returns is dropped by the [if ...; err != nil]. *)
      let err : option error := None in
      let '(didl, _) := env_Unmarshal net (field "Result" raw) in
      match err with
      | Some e => mret (Some (Errorf "unmarshaling DIDL-Lite XML: %w" [ArgErr e]))
      | None => LoadSonosPlaylist_add d ctx playlistName didl
      end
  end.

End Sonos.

(** ** The earlier revision of [ZoneDevice] (file sonos.go)

    That revision keeps the SOAP client in the handle and ranges over
    [c.zones[zone]] without looking at whether the key is there. *)

Module sonos_go.

Record Device : Type := { dev : goupnp.Device; av1 : soap.SOAPClient }.

Fixpoint ZoneDevice_scan (devs : list goupnp.Device) : option Device :=
  match devs with
  | [] => None
  | dev :: rest =>
      match goupnp.FindService dev av1.URN_AVTransport_1 with
      | [] => ZoneDevice_scan rest
      | svc :: _ => Some {| dev := dev; av1 := NewSOAPClient svc |}
      end
  end.

Definition ZoneDevice (c : Client) (ctx : Context) (zone : string) : result Device :=
  match ZoneDevice_scan (zone_devices c zone) with
  | Some d => Ok d
  | None => Err (Errorf "did not find an AV1 service in zone %q" [ArgStr zone])
  end.

Definition Ungroup (net : Env) (d : Device) (ctx : Context) : M (option error) :=
  r ← PerformActionCtx net (av1 d) ctx av1.URN_AVTransport_1
        "BecomeCoordinatorOfStandaloneGroup" [("InstanceID", "0")];
  match r with
  | Err e => mret (Some (Errorf "ungrouping: %w" [ArgErr e]))
  | Ok _ => mret None
  end.

End sonos_go.

(** ** A household, for running the operations

    Six answers to the probe: one that failed, a Sonos bridge without the
    AV1 service, a television of another vendor, a Sonos player with every
    service, a Sonos player whose zone query is refused, and a second bridge,
    alone in the hall.  An action made with a context that is done is answered
    by the context's error. *)

Module Sample.

Definition svc (serviceType url : string) : goupnp.Service :=
  {| goupnp.ServiceType := serviceType; goupnp.ControlURL := url |}.

Definition RenderingControl : string := "urn:schemas-upnp-org:service:RenderingControl:1".

Definition bridge : goupnp.Device :=
  {| goupnp.Manufacturer := "Sonos, Inc.";
     goupnp.UDN := "uuid:RINCON_000E58000001";
     goupnp.Services := [svc devPropertiesService "http://10.0.0.2:1400/DeviceProperties/Control"] |}.

Definition television : goupnp.Device :=
  {| goupnp.Manufacturer := "Acme Displays";
     goupnp.UDN := "uuid:acme-tv";
     goupnp.Services := [svc devPropertiesService "http://10.0.0.3/props";
                         svc av1.URN_AVTransport_1 "http://10.0.0.3/avt"] |}.

Definition kitchen : goupnp.Device :=
  {| goupnp.Manufacturer := "Sonos, Inc.";
     goupnp.UDN := "uuid:RINCON_000E58000004";
     goupnp.Services :=
       [svc devPropertiesService "http://10.0.0.4:1400/DeviceProperties/Control";
        svc av1.URN_ContentDirectory_1 "http://10.0.0.4:1400/MediaServer/ContentDirectory/Control";
        svc RenderingControl "http://10.0.0.4:1400/MediaRenderer/RenderingControl/Control";
        svc av1.URN_AVTransport_1 "http://10.0.0.4:1400/MediaRenderer/AVTransport/Control"] |}.

Definition attic : goupnp.Device :=
  {| goupnp.Manufacturer := "Sonos, Inc.";
     goupnp.UDN := "uuid:RINCON_000E58000005";
     goupnp.Services :=
       [svc devPropertiesService "http://10.0.0.5:1400/DeviceProperties/Control";
        svc av1.URN_AVTransport_1 "http://10.0.0.5:1400/MediaRenderer/AVTransport/Control"] |}.

Definition boost : goupnp.Device :=
  {| goupnp.Manufacturer := "Sonos, Inc.";
     goupnp.UDN := "uuid:RINCON_000E58000006";
     goupnp.Services := [svc devPropertiesService "http://10.0.0.6:1400/DeviceProperties/Control"] |}.

Definition answers : list goupnp.MaybeRootDevice :=
  [ goupnp.ProbeFailed "http://10.0.0.9:1400/xml/device_description.xml"
      (LibError "connection refused");
    goupnp.Probed "http://10.0.0.2:1400/xml/device_description.xml" bridge;
    goupnp.Probed "http://10.0.0.3/description.xml" television;
    goupnp.Probed "http://10.0.0.4:1400/xml/device_description.xml" kitchen;
    goupnp.Probed "http://10.0.0.5:1400/xml/device_description.xml" attic;
    goupnp.Probed "http://10.0.0.6:1400/xml/device_description.xml" boost ].

(** Three documents a Browse may return: a complete listing of three saved
    queues, the same listing cut in its second entry, and a listing whose only
    entry has no [res] element. *)
Definition listing_xml : string :=
  "<DIDL-Lite><container id='SQ:0'><title>Morning</title><res>file:///jffs/settings/savedqueues.rsq#0</res></container><container id='SQ:1'><title>Jazz</title><res>file:///jffs/settings/savedqueues.rsq#1</res></container><container id='SQ:2'><title>Dinner</title><res>file:///jffs/settings/savedqueues.rsq#2</res></container></DIDL-Lite>".

Definition cut_xml : string :=
  "<DIDL-Lite><container id='SQ:0'><title>Morning</title><res>file:///jffs/settings/savedqueues.rsq#0</res></container><container id='SQ:1'><title>Ja".

Definition bare_xml : string :=
  "<DIDL-Lite><container id='SQ:1'><title>Jazz</title></container></DIDL-Lite>".

Definition morning : Container :=
  {| ID := "SQ:0"; Title := "Morning"; Res := "file:///jffs/settings/savedqueues.rsq#0" |}.
Definition jazz : Container :=
  {| ID := "SQ:1"; Title := "Jazz"; Res := "file:///jffs/settings/savedqueues.rsq#1" |}.
Definition dinner : Container :=
  {| ID := "SQ:2"; Title := "Dinner"; Res := "file:///jffs/settings/savedqueues.rsq#2" |}.
Definition bare : Container := {| ID := "SQ:1"; Title := "Jazz"; Res := "" |}.

Definition Unmarshal (data : string) : list Container * option error :=
  if decide (data = listing_xml) then ([morning; jazz; dinner], None)
  else if decide (data = cut_xml) then
    ([morning], Some (LibError "XML syntax error on line 1: unexpected EOF"))
  else if decide (data = bare_xml) then ([bare], None)
  else ([], Some (LibError "EOF")).

Definition PerformAction (browsed : string) (history : list Call) (ctx : Context)
    (sc : soap.SOAPClient) (actionNamespace actionName : string) (inAction : fields)
  : result fields :=
  if ctx_done ctx then Err (LibError "context canceled")
  else if decide (actionName = "GetZoneAttributes") then
    if decide (soap.EndpointURL sc = "http://10.0.0.5:1400/DeviceProperties/Control")
    then Err (LibError "500 Internal Server Error")
    else if decide (soap.EndpointURL sc = "http://10.0.0.6:1400/DeviceProperties/Control")
    then Ok [("CurrentZoneName", "Hall")]
    else Ok [("CurrentZoneName", "Kitchen")]
  else if decide (actionName = "Browse") then Ok [("Result", browsed)]
  else Ok [].

(** The household, with the document its players return to a Browse. *)
Definition net (browsed : string) : Env :=
  {| env_DiscoverDevices := λ _ _, Ok answers;
     env_PerformAction := PerformAction browsed;
     env_Unmarshal := Unmarshal |}.

Definition live : Context := {| ctx_label := "request"; ctx_done := false |}.
Definition cancelled : Context := {| ctx_label := "request"; ctx_done := true |}.

Definition player : Device := {| dev := kitchen |}.

(** The client discovery builds in this household. *)
Definition client : Client :=
  {| devices := [bridge; kitchen; attic; boost];
     zones := {[ "Kitchen" := [bridge; kitchen]; "Hall" := [boost] ]} |}.

End Sample.

(** ** Vocabulary of the properties *)

(** The six play modes the package declares. *)
Definition PlayModes : list Z :=
  [NormalPlayMode; RepeatAll; RepeatOne; Shuffle; ShuffleRepeat; ShuffleRepeatOne].

(** The character of a digit. *)
Definition digit (k : Z) : ascii := ascii_of_nat (48 + Z.to_nat k).

(** The two characters of a number below one hundred. *)
Definition two_digits (n : Z) : string :=
  String (digit (n / 10)) (String (digit (n mod 10)) EmptyString).

(** The zone query of a device cannot succeed: the device advertises no
    device-properties service, or the GetZoneAttributes action on the first one
    is answered by an error whenever it is made. *)
Definition zone_query_fails (net : Env) (ctx : Context) (dev : goupnp.Device) : Prop :=
  match goupnp.FindService dev devPropertiesService with
  | [] => True
  | svc :: _ =>
      ∀ history, ∃ e,
        env_PerformAction net history ctx (NewSOAPClient svc) (goupnp.ServiceType svc)
          "GetZoneAttributes" [] = Err e
  end.

(** The zone query made now for a device fails: no device-properties service
    to call, or an error in answer to the call. *)
Definition zone_query_fails_now (net : Env) (ctx : Context) (fx : Effects)
    (dev : goupnp.Device) : Prop :=
  match goupnp.FindService dev devPropertiesService with
  | [] => True
  | svc :: _ =>
      ∃ e, env_PerformAction net (calls fx) ctx (NewSOAPClient svc) (goupnp.ServiceType svc)
             "GetZoneAttributes" [] = Err e
  end.

(** The three invariants of the client under construction. *)
Definition zones_within_devices (c : Client) : Prop :=
  ∀ zone devs d, zones c !! zone = Some devs → d ∈ devs → d ∈ devices c.

Definition zones_populated (c : Client) : Prop :=
  ∀ zone devs, zones c !! zone = Some devs → devs ≠ [].

Definition zones_answered (net : Env) (ctx : Context) (c : Client) : Prop :=
  ∀ zone devs d, zones c !! zone = Some devs → d ∈ devs → ¬ zone_query_fails net ctx d.

(** The Sonos devices among the answers to the probe, in the order of the
    answers; and a client whose zones list their devices in the order of the
    flat list. *)
Fixpoint sonos_devices (mrds : list goupnp.MaybeRootDevice) : list goupnp.Device :=
  match mrds with
  | [] => []
  | goupnp.Probed _ dev :: rest =>
      if Contains (goupnp.Manufacturer dev) "Sonos, Inc." then dev :: sonos_devices rest
      else sonos_devices rest
  | goupnp.ProbeFailed _ _ :: rest => sonos_devices rest
  end.

Definition zones_in_order (c : Client) : Prop :=
  ∀ zone devs, zones c !! zone = Some devs → devs `sublist_of` devices c.

(** The requests of [LoadSonosPlaylist] and its error for a playlist that
    is not there. *)
Definition Browse_in : fields :=
  [("ObjectID", "SQ:"); ("BrowseFlag", "BrowseDirectChildren"); ("Filter", "*");
   ("StartingIndex", "0"); ("RequestedCount", "100");
   ("SortCriteria", "+upnp:artist,+dc:title")].

Definition AddURIToQueue_in (uri : string) : fields :=
  [("InstanceID", "0"); ("EnqueuedURI", uri); ("EnqueuedURIMetaData", "");
   ("DesiredFirstTrackNumberEnqueued", "1"); ("EnqueueAsNext", "1")].

Definition playlist_not_found (playlistName : string) (checked : Z) : error :=
  Errorf "did not find Sonos playlist named %q (checked %d)"
    [ArgStr playlistName; ArgInt checked].

(** The control operations of a handle. *)
Inductive Operation : Type :=
| OpUngroup
| OpClearQueue
| OpSetPlayMode (mode : PlayMode)
| OpSetVolume (volume : Z)
| OpSetSleepTimer (duration : Z)
| OpPlay
| OpLoadSonosPlaylist (playlistName : string).

Definition perform (net : Env) (d : Device) (ctx : Context) (op : Operation)
  : M (option error) :=
  match op with
  | OpUngroup => Ungroup net d ctx
  | OpClearQueue => ClearQueue net d ctx
  | OpSetPlayMode mode => SetPlayMode net d ctx mode
  | OpSetVolume volume => SetVolume net d ctx volume
  | OpSetSleepTimer duration => SetSleepTimer net d ctx duration
  | OpPlay => Play net d ctx
  | OpLoadSonosPlaylist playlistName => LoadSonosPlaylist net d ctx playlistName
  end.

(** The call is an action, made with this context. *)
Definition carries (ctx : Context) (call : Call) : Prop :=
  match call with
  | CallPerformActionCtx ctx' _ _ _ _ => ctx' = ctx
  | CallDiscoverDevices _ => False
  end.

(** The SOAP library answers an action made with a context that is done by
    an error. *)
Definition honours_context (net : Env) : Prop :=
  ∀ history ctx sc actionNamespace actionName inAction,
    ctx_done ctx = true →
    ∃ e, env_PerformAction net history ctx sc actionNamespace actionName inAction = Err e.

(** What a [soap] call adds to the calls, and its failure under a context
    that is done. *)
Record one_call (net : Env) (ctx : Context) (fx : Effects) (r : result fields)
    (fx' : Effects) : Prop :=
  { one_call_new : ∃ new, calls fx' = calls fx ++ new ∧ Forall (carries ctx) new ∧
                          (length new ≤ 1)%nat;
    one_call_done : honours_context net → ctx_done ctx = true → ∃ e, r = Err e }.

(** ** Vocabulary of the further properties *)

(** The zone query [Discover] makes for a device: none when the device
    advertises no device-properties service. *)
Definition zone_query (ctx : Context) (dev : goupnp.Device) : list Call :=
  match goupnp.FindService dev devPropertiesService with
  | [] => []
  | svc :: _ =>
      [CallPerformActionCtx ctx (NewSOAPClient svc) (goupnp.ServiceType svc)
         "GetZoneAttributes" []]
  end.

Fixpoint zone_queries (ctx : Context) (devs : list goupnp.Device) : list Call :=
  match devs with
  | [] => []
  | dev :: rest => zone_query ctx dev ++ zone_queries ctx rest
  end.

(** All the devices recorded under the zones, zone after zone. *)
Definition zone_entries (zs : gmap string (list goupnp.Device)) : list goupnp.Device :=
  mjoin (map_to_list zs).*2.

(** The devices recorded under the zones are among those of the flat list,
    each no more often. *)
Definition zones_counted (c : Client) : Prop :=
  zone_entries (zones c) ⊆+ devices c.

(** The answers to the probe that are failures. *)
Fixpoint probe_failures (mrds : list goupnp.MaybeRootDevice) : nat :=
  match mrds with
  | [] => 0
  | goupnp.ProbeFailed _ _ :: rest => S (probe_failures rest)
  | goupnp.Probed _ _ :: rest => probe_failures rest
  end.

(** The two kinds of lines [Discover] logs. *)
Definition Discover_log_line (line : LogLine) : Prop :=
  (∃ loc e, line = Printf "Probing AV1 at %s: %v" [ArgStr loc; ArgErr e]) ∨
  (∃ e, line = Printf "getting zone attributes: %v" [ArgErr e]).

(** The zone query of a device is answered, whenever it is made, with this
    zone name. *)
Definition zone_query_answers (net : Env) (ctx : Context) (dev : goupnp.Device)
    (zone : string) : Prop :=
  ∃ svc rest,
    goupnp.FindService dev devPropertiesService = svc :: rest ∧
    ∀ history, ∃ resp,
      env_PerformAction net history ctx (NewSOAPClient svc) (goupnp.ServiceType svc)
        "GetZoneAttributes" [] = Ok resp ∧
      field "CurrentZoneName" resp = zone.

(** The service an operation resolves first, and the message it puts before
    the error of its first call. *)
Definition service_of (op : Operation) : string :=
  match op with
  | OpSetVolume _ => "urn:schemas-upnp-org:service:RenderingControl:1"
  | OpLoadSonosPlaylist _ => av1.URN_ContentDirectory_1
  | _ => av1.URN_AVTransport_1
  end.

Definition wrap_of (op : Operation) : string :=
  match op with
  | OpUngroup => "ungrouping: %w"
  | OpClearQueue => "clearing queue: %w"
  | OpSetPlayMode _ => "setting play mode: %w"
  | OpSetVolume _ => "setting volume: %w"
  | OpSetSleepTimer _ => "setting sleep timer: %w"
  | OpPlay => "playing: %w"
  | OpLoadSonosPlaylist _ => "browsing: %w"
  end.

(** The action of an operation's first call and its arguments. *)
Definition action_of (op : Operation) : string * fields :=
  match op with
  | OpUngroup => ("BecomeCoordinatorOfStandaloneGroup", [("InstanceID", "0")])
  | OpClearQueue => ("RemoveAllTracksFromQueue", [("InstanceID", "0")])
  | OpSetPlayMode mode =>
      ("SetPlayMode", [("InstanceID", "0"); ("NewPlayMode", playModeID mode)])
  | OpSetVolume volume =>
      ("SetVolume",
       [("InstanceID", "0"); ("Channel", "Master"); ("DesiredVolume", Itoa volume)])
  | OpSetSleepTimer duration =>
      ("ConfigureSleepTimer",
       [("InstanceID", "0"); ("NewSleepTimerDuration", SetSleepTimer_dur duration)])
  | OpPlay => ("Play", [("InstanceID", "0"); ("Speed", "1")])
  | OpLoadSonosPlaylist _ => ("Browse", Browse_in)
  end.

(** The call was answered without error, after the calls of [history]. *)
Definition answered_ok (net : Env) (history : list Call) (call : Call) : Prop :=
  match call with
  | CallPerformActionCtx ctx sc ns action inAction =>
      ∃ resp, env_PerformAction net history ctx sc ns action inAction = Ok resp
  | CallDiscoverDevices target =>
      ∃ mrds, env_DiscoverDevices net history target = Ok mrds
  end.

Fixpoint answers_ok (net : Env) (history : list Call) (new : list Call) : Prop :=
  match new with
  | [] => True
  | call :: rest => answered_ok net history call ∧ answers_ok net (history ++ [call]) rest
  end.

(** How an operation ended: the calls it added, all answered without error
    when it returns nil; otherwise the playlist was not found, or the service
    was not, or the error returned holds the error of the last call. *)
Definition outcome (net : Env) (fx : Effects) (new : list Call) (res : option error) : Prop :=
  match res with
  | None => new ≠ [] ∧ answers_ok net (calls fx) new
  | Some err =>
      (∃ playlistName n,
         err = playlist_not_found playlistName n ∧ answers_ok net (calls fx) new) ∨
      (∃ format serviceType,
         err = Errorf format
                 [ArgErr (Errorf "unknown service %q for device" [ArgStr serviceType])] ∧
         answers_ok net (calls fx) new) ∨
      (∃ format cause pre ctx sc ns action inAction,
         err = Errorf format [ArgErr cause] ∧
         new = pre ++ [CallPerformActionCtx ctx sc ns action inAction] ∧
         answers_ok net (calls fx) pre ∧
         env_PerformAction net (calls fx ++ pre) ctx sc ns action inAction = Err cause)
  end.

(** Reading a duration string back: what is before the first colon, and
    what is after it. *)
Fixpoint split_colon (s : string) : string * string :=
  match s with
  | EmptyString => (EmptyString, EmptyString)
  | String a rest =>
      if Ascii.eqb a ":" then (EmptyString, rest)
      else let '(before, after) := split_colon rest in (String a before, after)
  end.

(** A decimal number read from its digits. *)
Definition read_decimal (s : string) : option Z :=
  Z.of_int <$> NilZero.int_of_string s.

(** The seconds that an hh:mm:ss string stands for. *)
Definition read_hms (s : string) : option Z :=
  let '(hh, rest) := split_colon s in
  let '(mm, ss) := split_colon rest in
  h ← read_decimal hh; m ← read_decimal mm; sec ← read_decimal ss;
  Some ((h * 60 + m) * 60 + sec).

(** * Properties *)

(** ** Resolution and calls *)

Section Calls.

Variable net : Env.

Lemma soap_resolved d ctx serviceType action inAction sc fx :
  serviceClient (dev d) serviceType = Ok sc →
  soap net d ctx serviceType action inAction fx =
    (env_PerformAction net (calls fx) ctx sc serviceType action inAction,
     record_call (CallPerformActionCtx ctx sc serviceType action inAction) fx).
Proof. intros Hsc. unfold soap. rewrite Hsc. reflexivity. Qed.

Lemma soap_unresolved d ctx serviceType action inAction e fx :
  serviceClient (dev d) serviceType = Err e →
  soap net d ctx serviceType action inAction fx = (Err e, fx).
Proof. intros Hsc. unfold soap. rewrite Hsc. reflexivity. Qed.

Lemma serviceClient_Ok_iff device serviceType :
  (∃ sc, serviceClient device serviceType = Ok sc) ↔
  goupnp.FindService device serviceType ≠ [].
Proof.
  unfold serviceClient. destruct (goupnp.FindService device serviceType); split.
  - intros [sc Hsc]. discriminate.
  - intros Hne. contradiction.
  - intros _. discriminate.
  - intros _. eexists. reflexivity.
Qed.

End Calls.

(** ** Substrings *)

Lemma prefix_app (substr s : string) :
  String.prefix substr s = true ↔ ∃ post, s = substr +:+ post.
Proof.
  revert s. induction substr as [| a substr IH]; intros s; simpl.
  - split; [intros _; by exists s | intros _; by destruct s].
  - destruct s as [| b s]; [split; [discriminate | intros [post [=]]] |].
    simpl. destruct (Ascii.ascii_dec a b) as [-> | Hne].
    + rewrite IH. split; intros [post Hpost]; exists post.
      * simpl. by rewrite Hpost.
      * simpl in Hpost. by injection Hpost.
    + split; [discriminate | intros [post Hpost]; simpl in Hpost;
               injection Hpost as Hab _; by destruct Hne].
Qed.

(** [Contains s substr] holds when [substr] occurs somewhere in [s]. *)
Lemma Contains_spec (s substr : string) :
  Contains s substr = true ↔ ∃ pre post, s = pre +:+ substr +:+ post.
Proof.
  induction s as [| a s IH].
  - change (Contains "" substr) with (String.prefix substr "" || false).
    rewrite orb_false_r, prefix_app. split.
    + intros [post Hpost]. by exists "", post.
    + intros [pre [post Hs]]. exists post.
      destruct pre; [exact Hs | discriminate].
  - change (Contains (String a s) substr)
      with (String.prefix substr (String a s) || Contains s substr).
    rewrite orb_true_iff, prefix_app, IH. split.
    + intros [[post Hpost] | [pre [post Hs]]].
      * by exists "", post.
      * exists (String a pre), post. simpl. by rewrite Hs.
    + intros [pre [post Hs]]. destruct pre as [| b pre]; simpl in Hs.
      * left. by exists post.
      * right. injection Hs as _ Hs. by exists pre, post.
Qed.

(** ** Play modes *)

Lemma elem_of_PlayModes mode :
  mode ∈ PlayModes ↔ 0 ≤ mode ≤ 5.
Proof.
  unfold PlayModes, NormalPlayMode, RepeatAll, RepeatOne, Shuffle, ShuffleRepeat,
    ShuffleRepeatOne.
  rewrite !elem_of_cons, elem_of_nil. lia.
Qed.

Lemma playModeIDs_lookup_undeclared mode :
  mode ∉ PlayModes → playModeIDs !! mode = None.
Proof.
  intros Hout. apply not_elem_of_list_to_map_1. simpl.
  intros Hin. apply Hout. exact Hin.
Qed.

(** C5: the table of wire tokens has an entry for each of the six play
    modes, so the encoding is defined on all of them, and no two of them
    share a token. *)
Theorem playModeIDs_total_injective :
  (∀ mode, mode ∈ PlayModes →
     ∃ id, playModeIDs !! mode = Some id ∧ playModeID mode = id ∧ id ≠ "") ∧
  (∀ m1 m2, m1 ∈ PlayModes → m2 ∈ PlayModes →
     playModeID m1 = playModeID m2 → m1 = m2) ∧
  playModeID <$> PlayModes =
    ["NORMAL"; "REPEAT_ALL"; "REPEAT_ONE"; "SHUFFLE_NOREPEAT"; "SHUFFLE";
     "SHUFFLE_REPEAT_ONE"].
Proof.
  split; [| split].
  - intros mode Hin. apply elem_of_PlayModes in Hin.
    assert (Hcase : mode = 0 ∨ mode = 1 ∨ mode = 2 ∨ mode = 3 ∨ mode = 4 ∨ mode = 5)
      by lia.
    destruct Hcase as [-> | [-> | [-> | [-> | [-> | ->]]]]];
      eexists; (split; [reflexivity | split; [reflexivity | discriminate]]).
  - intros m1 m2 H1 H2. apply elem_of_PlayModes in H1, H2.
    assert (Hm1 : m1 = 0 ∨ m1 = 1 ∨ m1 = 2 ∨ m1 = 3 ∨ m1 = 4 ∨ m1 = 5) by lia.
    assert (Hm2 : m2 = 0 ∨ m2 = 1 ∨ m2 = 2 ∨ m2 = 3 ∨ m2 = 4 ∨ m2 = 5) by lia.
    destruct Hm1 as [-> | [-> | [-> | [-> | [-> | ->]]]]];
      destruct Hm2 as [-> | [-> | [-> | [-> | [-> | ->]]]]];
      vm_compute; intros Heq; first [reflexivity | discriminate Heq].
  - reflexivity.
Qed.

(** C10: a play mode that is none of the six constants is no key of the
    table, the lookup gives the empty string, and [SetPlayMode] goes on to
    make the SetPlayMode call, with that empty string as NewPlayMode. *)
Theorem SetPlayMode_undeclared (net : Env) (d : Device) (ctx : Context) (mode : PlayMode)
    (sc : soap.SOAPClient) (fx : Effects) :
  mode ∉ PlayModes →
  serviceClient (dev d) av1.URN_AVTransport_1 = Ok sc →
  let call := CallPerformActionCtx ctx sc av1.URN_AVTransport_1 "SetPlayMode"
                [("InstanceID", "0"); ("NewPlayMode", "")] in
  playModeID mode = "" ∧
  (SetPlayMode net d ctx mode fx).2 = record_call call fx ∧
  (SetPlayMode net d ctx mode fx).1 =
    match env_PerformAction net (calls fx) ctx sc av1.URN_AVTransport_1 "SetPlayMode"
            [("InstanceID", "0"); ("NewPlayMode", "")] with
    | Err e => Some (Errorf "setting play mode: %w" [ArgErr e])
    | Ok _ => None
    end.
Proof.
  intros Hout Hsc call.
  assert (Hid : playModeID mode = "").
  { unfold playModeID. rewrite playModeIDs_lookup_undeclared by exact Hout. reflexivity. }
  split; [exact Hid |].
  unfold SetPlayMode, mbind, M_bind. rewrite Hid.
  rewrite (soap_resolved net d ctx _ _ _ sc fx Hsc).
  destruct (env_PerformAction net (calls fx) ctx sc av1.URN_AVTransport_1 "SetPlayMode" _);
    split; reflexivity.
Qed.

(** ** Decimal strings *)

(** Reading the digits of [Itoa i] back gives [i]. *)
Lemma Itoa_decimal (i : Z) :
  Z.of_int <$> NilZero.int_of_string (Itoa i) = Some i.
Proof.
  unfold Itoa. rewrite NilZero.isi.
  - simpl. f_equal. apply DecimalZ.of_to.
  - destruct i; simpl; intros [= Hnil]; by apply DecimalPos.Unsigned.to_uint_nonnil in Hnil.
  - destruct i; simpl; intros [= Hnil]; by apply DecimalPos.Unsigned.to_uint_nonnil in Hnil.
Qed.

Lemma Itoa_inj (i j : Z) : Itoa i = Itoa j → i = j.
Proof.
  intros Heq. pose proof (Itoa_decimal i) as Hi. rewrite Heq, Itoa_decimal in Hi.
  by injection Hi.
Qed.

Lemma fmt_02d_two_digits (n : Z) : 0 ≤ n < 100 → fmt_02d n = two_digits n.
Proof.
  intros Hn.
  assert (Hall : Forall (λ k, fmt_02d k = two_digits k) (seqZ 0 100)).
  { apply (bool_decide_unpack _). vm_compute. exact I. }
  rewrite Forall_forall in Hall. apply Hall, elem_of_seqZ. lia.
Qed.

(** ** The sleep timer *)

Lemma int64_wrap_id (z : Z) : int64_range z → int64_wrap z = z.
Proof. unfold int64_range, int64_wrap. intros Hz. rewrite Z.mod_small; lia. Qed.

Lemma SetSleepTimer_dur_positive (d : Z) :
  int64_range d → 0 < d →
  SetSleepTimer_dur d =
    fmt_02d (d / time.Hour) +:+ ":" +:+
    fmt_02d (d mod time.Hour / time.Minute) +:+ ":" +:+
    fmt_02d (d mod time.Minute / time.Second).
Proof.
  intros Hr Hd. unfold SetSleepTimer_dur.
  destruct (Z.ltb_spec 0 d) as [_ | Hle]; [| lia].
  assert (HH : time.Hour = 3600000000000) by reflexivity.
  assert (HM : time.Minute = 60000000000) by reflexivity.
  assert (HS : time.Second = 1000000000) by reflexivity.
  unfold int64_range in Hr.
  rewrite (Z.quot_div_nonneg d time.Hour) by lia.
  assert (E1 : d - d / time.Hour * time.Hour = d mod time.Hour).
  { rewrite Z.mod_eq by lia. lia. }
  pose proof (Z.mod_pos_bound d time.Hour ltac:(lia)) as B1.
  assert (Hq : 0 ≤ d / time.Hour * time.Hour ≤ d).
  { pose proof (Z.mul_div_le d time.Hour ltac:(lia)).
    pose proof (Z.div_pos d time.Hour ltac:(lia) ltac:(lia)). lia. }
  rewrite (int64_wrap_id (d / time.Hour * time.Hour)) by (unfold int64_range; lia).
  rewrite E1, (int64_wrap_id (d mod time.Hour)) by (unfold int64_range; lia).
  rewrite (Z.quot_div_nonneg (d mod time.Hour) time.Minute) by lia.
  assert (E2 : d mod time.Hour - d mod time.Hour / time.Minute * time.Minute
               = d mod time.Minute).
  { pose proof (Z.mod_eq (d mod time.Hour) time.Minute ltac:(lia)) as Hm.
    rewrite (Z.mod_mod_divide d time.Hour time.Minute) in Hm
      by (exists 60; reflexivity).
    lia. }
  pose proof (Z.mod_pos_bound d time.Minute ltac:(lia)) as B2.
  assert (Hq2 : 0 ≤ d mod time.Hour / time.Minute * time.Minute ≤ d mod time.Hour).
  { pose proof (Z.mul_div_le (d mod time.Hour) time.Minute ltac:(lia)).
    pose proof (Z.div_pos (d mod time.Hour) time.Minute ltac:(lia) ltac:(lia)). lia. }
  rewrite (int64_wrap_id (d mod time.Hour / time.Minute * time.Minute))
    by (unfold int64_range; lia).
  rewrite E2, (int64_wrap_id (d mod time.Minute)) by (unfold int64_range; lia).
  rewrite (Z.quot_div_nonneg (d mod time.Minute) time.Second) by lia.
  reflexivity.
Qed.

(** The hours, minutes and seconds of a duration, and what they leave. *)
Lemma duration_parts (d : Z) :
  0 ≤ d →
  0 ≤ d / time.Hour ∧
  0 ≤ d mod time.Hour / time.Minute < 60 ∧
  0 ≤ d mod time.Minute / time.Second < 60 ∧
  0 ≤ d - (d / time.Hour * time.Hour + d mod time.Hour / time.Minute * time.Minute
           + d mod time.Minute / time.Second * time.Second) < time.Second.
Proof.
  intros Hd.
  assert (HH : time.Hour = 60 * time.Minute) by reflexivity.
  assert (HM : time.Minute = 60 * time.Second) by reflexivity.
  assert (HS : time.Second = 1000000000) by reflexivity.
  pose proof (Z.mod_pos_bound d time.Hour ltac:(lia)) as Bh.
  pose proof (Z.mod_pos_bound d time.Minute ltac:(lia)) as Bm.
  pose proof (Z.mod_pos_bound (d mod time.Minute) time.Second ltac:(lia)) as Bs.
  pose proof (Z.mod_eq d time.Hour ltac:(lia)) as Eh.
  pose proof (Z.mod_eq (d mod time.Hour) time.Minute ltac:(lia)) as Em.
  rewrite (Z.mod_mod_divide d time.Hour time.Minute) in Em by (exists 60; exact HH).
  pose proof (Z.mod_eq (d mod time.Minute) time.Second ltac:(lia)) as Es.
  split; [apply Z.div_pos; lia |].
  split; [split; [apply Z.div_pos; lia | apply Z.div_lt_upper_bound; lia] |].
  split; [split; [apply Z.div_pos; lia | apply Z.div_lt_upper_bound; lia] |].
  lia.
Qed.

(** C3: the duration [SetSleepTimer] sends.  A duration that is not
    positive gives the empty string.  A positive one gives hours, minutes and
    seconds, each printed on two digits at least and separated by colons: the
    whole hours of the duration, the whole minutes left, the whole seconds left;
    what is below a second is dropped, never rounded up.  The minutes and the
    seconds are two digits, and so are the hours below one hundred.  Zero gives
    the empty string, 1h2m3s gives 01:02:03 and 90s gives 00:01:30.  It is this
    string that goes out as NewSleepTimerDuration. *)
Theorem SetSleepTimer_dur_spec (d : Z) :
  int64_range d →
  (d ≤ 0 → SetSleepTimer_dur d = "") ∧
  (0 < d →
     let hh := d / time.Hour in
     let mm := d mod time.Hour / time.Minute in
     let ss := d mod time.Minute / time.Second in
     SetSleepTimer_dur d = fmt_02d hh +:+ ":" +:+ fmt_02d mm +:+ ":" +:+ fmt_02d ss ∧
     0 ≤ hh ∧ 0 ≤ mm < 60 ∧ 0 ≤ ss < 60 ∧
     0 ≤ d - (hh * time.Hour + mm * time.Minute + ss * time.Second) < time.Second ∧
     fmt_02d mm = two_digits mm ∧ fmt_02d ss = two_digits ss ∧
     (hh < 100 → fmt_02d hh = two_digits hh)) ∧
  SetSleepTimer_dur 0 = "" ∧
  SetSleepTimer_dur (1 * time.Hour + 2 * time.Minute + 3 * time.Second) = "01:02:03" ∧
  SetSleepTimer_dur (90 * time.Second) = "00:01:30" ∧
  (∀ net dv ctx sc fx,
     serviceClient (dev dv) av1.URN_AVTransport_1 = Ok sc →
     (SetSleepTimer net dv ctx d fx).2 =
       record_call
         (CallPerformActionCtx ctx sc av1.URN_AVTransport_1 "ConfigureSleepTimer"
            [("InstanceID", "0"); ("NewSleepTimerDuration", SetSleepTimer_dur d)]) fx).
Proof.
  intros Hr. split; [| split; [| repeat split; try reflexivity]].
  - intros Hd. unfold SetSleepTimer_dur.
    destruct (Z.ltb_spec 0 d) as [Hlt | _]; [lia | reflexivity].
  - intros Hd hh mm ss.
    destruct (duration_parts d ltac:(lia)) as [Hhh [Hmm [Hss Hrest]]].
    split; [apply SetSleepTimer_dur_positive; assumption |].
    split; [exact Hhh |]. split; [exact Hmm |]. split; [exact Hss |].
    split; [exact Hrest |].
    split; [apply fmt_02d_two_digits; subst mm; lia |].
    split; [apply fmt_02d_two_digits; subst ss; lia |].
    intros Hlt. apply fmt_02d_two_digits. subst hh. lia.
  - intros net dv ctx sc fx Hsc. unfold SetSleepTimer, mbind, M_bind.
    rewrite (soap_resolved net dv ctx _ _ _ sc fx Hsc).
    destruct (env_PerformAction net (calls fx) ctx sc _ _ _); reflexivity.
Qed.

Lemma SetSleepTimer_dur_spec_witness :
  int64_range (45 * time.Minute + 1) ∧
  SetSleepTimer_dur (45 * time.Minute + 1) = "00:45:00".
Proof.
  assert (Hr : int64_range (45 * time.Minute + 1)).
  { unfold int64_range. split; [discriminate | reflexivity]. }
  split; [exact Hr |].
  destruct (SetSleepTimer_dur_spec (45 * time.Minute + 1) Hr) as [_ [Hpos _]].
  rewrite (proj1 (Hpos eq_refl)). reflexivity.
Defined.

(** ** Volume *)

(** C8: whatever the integer, in the range 0 to 100 or not, [SetVolume]
    makes one call, the SetVolume action of the rendering-control service of
    the device, with instance id 0, channel Master and, as desired volume, the
    decimal writing of the integer as it was given: reading the digits back
    gives the same integer. *)
Theorem SetVolume_call (net : Env) (d : Device) (ctx : Context) (volume : Z)
    (sc : soap.SOAPClient) (fx : Effects) :
  serviceClient (dev d) "urn:schemas-upnp-org:service:RenderingControl:1" = Ok sc →
  calls (SetVolume net d ctx volume fx).2 =
    calls fx ++
    [CallPerformActionCtx ctx sc "urn:schemas-upnp-org:service:RenderingControl:1"
       "SetVolume"
       [("InstanceID", "0"); ("Channel", "Master"); ("DesiredVolume", Itoa volume)]] ∧
  Z.of_int <$> NilZero.int_of_string (Itoa volume) = Some volume ∧
  (SetVolume net d ctx volume fx).1 =
    match env_PerformAction net (calls fx) ctx sc
            "urn:schemas-upnp-org:service:RenderingControl:1" "SetVolume"
            [("InstanceID", "0"); ("Channel", "Master"); ("DesiredVolume", Itoa volume)] with
    | Err e => Some (Errorf "setting volume: %w" [ArgErr e])
    | Ok _ => None
    end.
Proof.
  intros Hsc. unfold SetVolume, mbind, M_bind.
  rewrite (soap_resolved net d ctx _ _ _ sc fx Hsc).
  split; [| split].
  - destruct (env_PerformAction net (calls fx) ctx sc _ _ _); reflexivity.
  - apply Itoa_decimal.
  - destruct (env_PerformAction net (calls fx) ctx sc _ _ _); reflexivity.
Qed.

Lemma SetVolume_call_witness :
  serviceClient Sample.kitchen "urn:schemas-upnp-org:service:RenderingControl:1" =
    Ok {| soap.EndpointURL := "http://10.0.0.4:1400/MediaRenderer/RenderingControl/Control" |} ∧
  calls (SetVolume (Sample.net "") Sample.player Sample.live 250 no_effects).2 =
    [CallPerformActionCtx Sample.live
       {| soap.EndpointURL := "http://10.0.0.4:1400/MediaRenderer/RenderingControl/Control" |}
       "urn:schemas-upnp-org:service:RenderingControl:1" "SetVolume"
       [("InstanceID", "0"); ("Channel", "Master"); ("DesiredVolume", "250")]].
Proof.
  split; [reflexivity |].
  exact (proj1 (SetVolume_call (Sample.net "") Sample.player Sample.live 250 _ no_effects
                  eq_refl)).
Defined.

Lemma SetPlayMode_undeclared_witness :
  (6 ∉ PlayModes) ∧
  serviceClient Sample.kitchen av1.URN_AVTransport_1 =
    Ok {| soap.EndpointURL := "http://10.0.0.4:1400/MediaRenderer/AVTransport/Control" |} ∧
  (SetPlayMode (Sample.net "") Sample.player Sample.live 6 no_effects).2 =
    record_call
      (CallPerformActionCtx Sample.live
         {| soap.EndpointURL := "http://10.0.0.4:1400/MediaRenderer/AVTransport/Control" |}
         av1.URN_AVTransport_1 "SetPlayMode" [("InstanceID", "0"); ("NewPlayMode", "")])
      no_effects.
Proof.
  assert (Hout : 6 ∉ PlayModes).
  { rewrite elem_of_PlayModes. intros [_ Hle]. exact (Hle eq_refl). }
  split; [exact Hout |]. split; [reflexivity |].
  exact (proj1 (proj2 (SetPlayMode_undeclared (Sample.net "") Sample.player Sample.live 6 _
                         no_effects Hout eq_refl))).
Defined.

(** ** Discovery *)

Section DiscoverFacts.

Variable net : Env.
Variable ctx : Context.

(** What one turn of the loop does to the client. *)
Lemma Discover_visit_client (c : Client) (mrd : goupnp.MaybeRootDevice) (fx : Effects) :
  let c' := (Discover_visit net ctx c mrd fx).1 in
  match mrd with
  | goupnp.ProbeFailed _ _ => c' = c
  | goupnp.Probed _ dev =>
      if Contains (goupnp.Manufacturer dev) "Sonos, Inc." then
        devices c' = devices c ++ [dev] ∧
        (zones c' = zones c ∨
         ∃ zone, zones c' = <[zone := zone_devices c zone ++ [dev]]> (zones c) ∧
                 ¬ zone_query_fails net ctx dev)
      else c' = c
  end.
Proof.
  destruct mrd as [loc dev | loc e]; simpl; [| reflexivity].
  destruct (Contains (goupnp.Manufacturer dev) "Sonos, Inc."); simpl; [| reflexivity].
  unfold zone_query_fails.
  destruct (goupnp.FindService dev devPropertiesService) as [| svc rest]; simpl.
  { split; [reflexivity | left; reflexivity]. }
  unfold mbind, M_bind, PerformActionCtx.
  destruct (env_PerformAction net (calls fx) ctx (NewSOAPClient svc)
              (goupnp.ServiceType svc) "GetZoneAttributes" []) as [resp | e] eqn:Hq; simpl.
  - split; [reflexivity |]. right. exists (field "CurrentZoneName" resp).
    split; [reflexivity |]. intros Hfail.
    destruct (Hfail (calls fx)) as [e He]. congruence.
  - split; [reflexivity | left; reflexivity].
Qed.

(** A property of the client that every turn keeps holds when the loop ends. *)
Lemma Discover_loop_invariant (P : Client → Prop) :
  (∀ c mrd fx, P c → P (Discover_visit net ctx c mrd fx).1) →
  ∀ mrds c fx, P c → P (Discover_loop net ctx mrds c fx).1.
Proof.
  intros Hstep mrds. induction mrds as [| mrd rest IH]; intros c fx Hc; simpl.
  - exact Hc.
  - unfold mbind, M_bind.
    pose proof (Hstep c mrd fx Hc) as Hc'.
    destruct (Discover_visit net ctx c mrd fx) as [c' fx']. simpl in Hc'.
    apply IH. exact Hc'.
Qed.

Lemma Discover_unfold (fx : Effects) :
  Discover net ctx fx =
    match env_DiscoverDevices net (calls fx) devPropertiesService with
    | Err e =>
        (Err (Errorf "discovering AV1: %w" [ArgErr e]),
         record_call (CallDiscoverDevices devPropertiesService) fx)
    | Ok mrds =>
        let r := Discover_loop net ctx mrds {| devices := []; zones := ∅ |}
                   (record_call (CallDiscoverDevices devPropertiesService) fx) in
        (Ok r.1, r.2)
    end.
Proof.
  unfold Discover, mbind, M_bind, DiscoverDevices.
  destruct (env_DiscoverDevices net (calls fx) devPropertiesService) as [mrds | e];
    [| reflexivity].
  destruct (Discover_loop net ctx mrds _ _); reflexivity.
Qed.

(** A property that holds of the empty client and that every turn keeps
    holds of the client [Discover] returns. *)
Lemma Discover_invariant (P : Client → Prop) (fx : Effects) (c : Client) :
  P {| devices := []; zones := ∅ |} →
  (∀ c mrd fx, P c → P (Discover_visit net ctx c mrd fx).1) →
  (Discover net ctx fx).1 = Ok c → P c.
Proof.
  intros H0 Hstep. rewrite Discover_unfold.
  destruct (env_DiscoverDevices net (calls fx) devPropertiesService) as [mrds | e];
    simpl; [| discriminate].
  intros [= <-]. apply Discover_loop_invariant; assumption.
Qed.

Lemma Discover_visit_zones_within_devices c mrd fx :
  zones_within_devices c → zones_within_devices (Discover_visit net ctx c mrd fx).1.
Proof.
  intros Hc. pose proof (Discover_visit_client c mrd fx) as Hv. simpl in Hv.
  destruct mrd as [loc dev | loc e]; [| by rewrite Hv].
  destruct (Contains (goupnp.Manufacturer dev) "Sonos, Inc."); [| by rewrite Hv].
  destruct Hv as [Hdev Hz]. intros zone devs d Hl Hd. rewrite Hdev.
  destruct Hz as [Hz | [zone' [Hz _]]]; rewrite Hz in Hl.
  - apply elem_of_app. left. eapply Hc; eassumption.
  - destruct (decide (zone' = zone)) as [-> | Hne].
    + rewrite lookup_insert_eq in Hl. injection Hl as <-.
      apply elem_of_app in Hd as [Hd | Hd]; apply elem_of_app; [left | by right].
      unfold zone_devices in Hd.
      destruct (zones c !! zone) as [devs0 |] eqn:Hl0; simpl in Hd.
      * eapply Hc; eassumption.
      * by apply elem_of_nil in Hd.
    + rewrite lookup_insert_ne in Hl by exact Hne.
      apply elem_of_app. left. eapply Hc; eassumption.
Qed.

Lemma Discover_visit_zones_populated c mrd fx :
  zones_populated c → zones_populated (Discover_visit net ctx c mrd fx).1.
Proof.
  intros Hc. pose proof (Discover_visit_client c mrd fx) as Hv. simpl in Hv.
  destruct mrd as [loc dev | loc e]; [| by rewrite Hv].
  destruct (Contains (goupnp.Manufacturer dev) "Sonos, Inc."); [| by rewrite Hv].
  destruct Hv as [_ Hz]. intros zone devs Hl.
  destruct Hz as [Hz | [zone' [Hz _]]]; rewrite Hz in Hl.
  - eapply Hc; eassumption.
  - destruct (decide (zone' = zone)) as [-> | Hne].
    + rewrite lookup_insert_eq in Hl. injection Hl as <-.
      intros Happ. apply app_eq_nil in Happ as [_ Hnil]. discriminate.
    + rewrite lookup_insert_ne in Hl by exact Hne. eapply Hc; eassumption.
Qed.

Lemma Discover_visit_zones_answered c mrd fx :
  zones_answered net ctx c → zones_answered net ctx (Discover_visit net ctx c mrd fx).1.
Proof.
  intros Hc. pose proof (Discover_visit_client c mrd fx) as Hv. simpl in Hv.
  destruct mrd as [loc dev | loc e]; [| by rewrite Hv].
  destruct (Contains (goupnp.Manufacturer dev) "Sonos, Inc."); [| by rewrite Hv].
  destruct Hv as [_ Hz]. intros zone devs d Hl Hd.
  destruct Hz as [Hz | [zone' [Hz Hans]]]; rewrite Hz in Hl.
  - eapply Hc; eassumption.
  - destruct (decide (zone' = zone)) as [-> | Hne].
    + rewrite lookup_insert_eq in Hl. injection Hl as <-.
      apply elem_of_app in Hd as [Hd | Hd].
      * unfold zone_devices in Hd.
        destruct (zones c !! zone) as [devs0 |] eqn:Hl0; simpl in Hd.
        -- eapply Hc; eassumption.
        -- by apply elem_of_nil in Hd.
      * apply list_elem_of_singleton in Hd as ->. exact Hans.
    + rewrite lookup_insert_ne in Hl by exact Hne. eapply Hc; eassumption.
Qed.

End DiscoverFacts.

Lemma Sample_Discover (browsed : string) :
  (Discover (Sample.net browsed) Sample.live no_effects).1 = Ok Sample.client.
Proof. vm_compute. reflexivity. Qed.

(** C6: in the client [Discover] returns, a device listed under a zone is
    one of the devices of the flat list. *)
Theorem Discover_zones_within_devices (net : Env) (ctx : Context) (fx : Effects)
    (c : Client) :
  (Discover net ctx fx).1 = Ok c →
  ∀ zone devs d, zones c !! zone = Some devs → d ∈ devs → d ∈ devices c.
Proof.
  intros Hc.
  apply (Discover_invariant net ctx (zones_within_devices) fx c); [| | exact Hc].
  - intros zone devs d Hl. simpl in Hl. rewrite lookup_empty in Hl. discriminate.
  - intros c0 mrd fx0. apply Discover_visit_zones_within_devices.
Qed.

Lemma Discover_zones_within_devices_witness :
  (Discover (Sample.net "") Sample.live no_effects).1 = Ok Sample.client ∧
  zones Sample.client !! "Kitchen" = Some [Sample.bridge; Sample.kitchen] ∧
  Sample.kitchen ∈ [Sample.bridge; Sample.kitchen] ∧
  Sample.kitchen ∈ devices Sample.client.
Proof.
  assert (Hl : zones Sample.client !! "Kitchen" = Some [Sample.bridge; Sample.kitchen])
    by reflexivity.
  assert (Hd : Sample.kitchen ∈ [Sample.bridge; Sample.kitchen])
    by (apply list_elem_of_further, list_elem_of_here).
  split; [apply Sample_Discover |]. split; [exact Hl |]. split; [exact Hd |].
  exact (Discover_zones_within_devices (Sample.net "") Sample.live no_effects Sample.client
           (Sample_Discover "") "Kitchen" _ Sample.kitchen Hl Hd).
Defined.

(** The client [Discover] returns has no zone without a device, and neither
    has the zero client. *)
Lemma Discover_zones_populated (net : Env) (ctx : Context) (fx : Effects) (c : Client) :
  (Discover net ctx fx).1 = Ok c → zones_populated c.
Proof.
  apply (Discover_invariant net ctx zones_populated fx c).
  - intros zone devs Hl. simpl in Hl. rewrite lookup_empty in Hl. discriminate.
  - intros c0 mrd fx0. apply Discover_visit_zones_populated.
Qed.

Lemma zero_Client_zones_populated : zones_populated {| devices := []; zones := ∅ |}.
Proof. intros zone devs Hl. simpl in Hl. rewrite lookup_empty in Hl. discriminate. Qed.

Lemma Discover_zones_answered (net : Env) (ctx : Context) (fx : Effects) (c : Client) :
  (Discover net ctx fx).1 = Ok c → zones_answered net ctx c.
Proof.
  apply (Discover_invariant net ctx (zones_answered net ctx) fx c).
  - intros zone devs d Hl. simpl in Hl. rewrite lookup_empty in Hl. discriminate.
  - intros c0 mrd fx0. apply Discover_visit_zones_answered.
Qed.

Lemma Discover_visit_devices_mono net ctx c mrd fx d :
  d ∈ devices c → d ∈ devices (Discover_visit net ctx c mrd fx).1.
Proof.
  intros Hd. pose proof (Discover_visit_client net ctx c mrd fx) as Hv. simpl in Hv.
  destruct mrd as [loc dev | loc e]; [| by rewrite Hv].
  destruct (Contains (goupnp.Manufacturer dev) "Sonos, Inc."); [| by rewrite Hv].
  destruct Hv as [-> _]. apply elem_of_app. by left.
Qed.

Lemma Discover_loop_devices_mono net ctx mrds c fx d :
  d ∈ devices c → d ∈ devices (Discover_loop net ctx mrds c fx).1.
Proof.
  apply (Discover_loop_invariant net ctx (λ c, d ∈ devices c)).
  intros c0 mrd fx0. apply Discover_visit_devices_mono.
Qed.

(** A Sonos device among the answers is in the flat list at the end. *)
Lemma Discover_loop_retains net ctx mrds c fx loc dev :
  goupnp.Probed loc dev ∈ mrds →
  Contains (goupnp.Manufacturer dev) "Sonos, Inc." = true →
  dev ∈ devices (Discover_loop net ctx mrds c fx).1.
Proof.
  intros Hin Hsonos. revert c fx.
  induction mrds as [| mrd rest IH]; intros c fx; [by apply elem_of_nil in Hin |].
  simpl. unfold mbind, M_bind.
  destruct (Discover_visit net ctx c mrd fx) as [c' fx'] eqn:Hv.
  apply elem_of_cons in Hin as [<- | Hin]; [| by apply IH].
  apply Discover_loop_devices_mono.
  pose proof (Discover_visit_client net ctx c (goupnp.Probed loc dev) fx) as Hc.
  cbv beta zeta iota in Hc. rewrite Hsonos, Hv in Hc. simpl in Hc.
  destruct Hc as [-> _]. apply elem_of_app. right. apply list_elem_of_here.
Qed.

Lemma Discover_visit_zones_in_order net ctx c mrd fx :
  zones_in_order c → zones_in_order (Discover_visit net ctx c mrd fx).1.
Proof.
  intros Hc. pose proof (Discover_visit_client net ctx c mrd fx) as Hv. simpl in Hv.
  destruct mrd as [loc dev | loc e]; [| by rewrite Hv].
  destruct (Contains (goupnp.Manufacturer dev) "Sonos, Inc."); [| by rewrite Hv].
  destruct Hv as [Hdev Hz]. intros zone devs Hl. rewrite Hdev.
  destruct Hz as [Hz | [zone' [Hz _]]]; rewrite Hz in Hl.
  - apply sublist_inserts_r. by eapply Hc.
  - destruct (decide (zone' = zone)) as [-> | Hne].
    + rewrite lookup_insert_eq in Hl. injection Hl as <-.
      apply sublist_app; [| done]. unfold zone_devices.
      destruct (zones c !! zone) as [devs0 |] eqn:Hl0; simpl.
      * by eapply Hc.
      * apply sublist_nil_l.
    + rewrite lookup_insert_ne in Hl by exact Hne.
      apply sublist_inserts_r. by eapply Hc.
Qed.

Lemma Discover_loop_devices net ctx mrds c fx :
  devices (Discover_loop net ctx mrds c fx).1 = devices c ++ sonos_devices mrds.
Proof.
  revert c fx. induction mrds as [| mrd rest IH]; intros c fx.
  - simpl. by rewrite app_nil_r.
  - pose proof (Discover_visit_client net ctx c mrd fx) as Hv.
    cbn [Discover_loop]. unfold mbind at 1, M_bind.
    destruct (Discover_visit net ctx c mrd fx) as [c' fx']. rewrite IH.
    destruct mrd as [loc dev | loc e]; simpl in *; [| by rewrite Hv].
    destruct (Contains (goupnp.Manufacturer dev) "Sonos, Inc."); [| by rewrite Hv].
    destruct Hv as [-> _]. by rewrite <- app_assoc.
Qed.

(** The flat list is the Sonos devices in the order they answered the probe,
    and every zone lists its devices in that order. *)
Lemma Discover_in_order net ctx fx mrds c :
  env_DiscoverDevices net (calls fx) devPropertiesService = Ok mrds →
  (Discover net ctx fx).1 = Ok c →
  devices c = sonos_devices mrds ∧
  ∀ zone devs, zones c !! zone = Some devs → devs `sublist_of` sonos_devices mrds.
Proof.
  intros Hprobe Hc.
  assert (Hdev : devices c = sonos_devices mrds).
  { rewrite Discover_unfold, Hprobe in Hc. simpl in Hc. injection Hc as <-.
    by rewrite Discover_loop_devices. }
  split; [exact Hdev |]. rewrite <- Hdev.
  apply (Discover_invariant net ctx zones_in_order fx c); [| | exact Hc].
  - intros zone devs Hl. simpl in Hl. rewrite lookup_empty in Hl. discriminate.
  - intros c0 mrd fx0. apply Discover_visit_zones_in_order.
Qed.

(** C7: a Sonos device whose zone query fails, for want of the service or
    by an error of the call, is added to the flat list at its turn of the loop
    and to no zone; when the probe has answered, [Discover] still returns a
    client, which has the device in its flat list and under no zone. *)
Theorem Discover_zone_failure_absorbed (net : Env) (ctx : Context) (loc : string)
    (dev : goupnp.Device) :
  Contains (goupnp.Manufacturer dev) "Sonos, Inc." = true →
  (∀ c fx,
     zone_query_fails_now net ctx fx dev →
     let c' := (Discover_visit net ctx c (goupnp.Probed loc dev) fx).1 in
     devices c' = devices c ++ [dev] ∧ zones c' = zones c) ∧
  (∀ fx mrds,
     env_DiscoverDevices net (calls fx) devPropertiesService = Ok mrds →
     goupnp.Probed loc dev ∈ mrds →
     zone_query_fails net ctx dev →
     ∃ c, (Discover net ctx fx).1 = Ok c ∧
          dev ∈ devices c ∧
          ∀ zone devs, zones c !! zone = Some devs → dev ∉ devs).
Proof.
  intros Hsonos. split.
  - intros c fx Hfail. unfold zone_query_fails_now in Hfail. simpl. rewrite Hsonos. simpl.
    destruct (goupnp.FindService dev devPropertiesService) as [| svc rest]; simpl.
    { split; reflexivity. }
    destruct Hfail as [e He]. unfold mbind, M_bind, PerformActionCtx. rewrite He. simpl.
    split; reflexivity.
  - intros fx mrds Hprobe Hin Hfail.
    pose proof (Discover_unfold net ctx fx) as HD. rewrite Hprobe in HD.
    eexists. split; [rewrite HD; reflexivity |]. split.
    + apply (Discover_loop_retains net ctx mrds _ _ loc dev Hin Hsonos).
    + intros zone devs Hl Hd.
      assert (Hc : (Discover net ctx fx).1 =
                   Ok (Discover_loop net ctx mrds {| devices := []; zones := ∅ |}
                         (record_call (CallDiscoverDevices devPropertiesService) fx)).1)
        by (rewrite HD; reflexivity).
      exact (Discover_zones_answered net ctx fx _ Hc zone devs dev Hl Hd Hfail).
Qed.

Lemma Discover_zone_failure_absorbed_witness :
  Contains (goupnp.Manufacturer Sample.attic) "Sonos, Inc." = true ∧
  zone_query_fails (Sample.net "") Sample.live Sample.attic ∧
  ∃ c, (Discover (Sample.net "") Sample.live no_effects).1 = Ok c ∧
       Sample.attic ∈ devices c ∧
       ∀ zone devs, zones c !! zone = Some devs → Sample.attic ∉ devs.
Proof.
  assert (Hfail : zone_query_fails (Sample.net "") Sample.live Sample.attic).
  { intros history. eexists. reflexivity. }
  split; [reflexivity |]. split; [exact Hfail |].
  refine (proj2 (Discover_zone_failure_absorbed (Sample.net "") Sample.live
                   "http://10.0.0.5:1400/xml/device_description.xml" Sample.attic eq_refl)
            no_effects Sample.answers eq_refl _ Hfail).
  unfold Sample.answers. do 4 apply list_elem_of_further. apply list_elem_of_here.
Defined.

(** ** Zone lookup *)

Lemma ZoneDevice_scan_first (pre post : list goupnp.Device) (d : goupnp.Device) :
  Forall (λ x, goupnp.FindService x av1.URN_AVTransport_1 = []) pre →
  goupnp.FindService d av1.URN_AVTransport_1 ≠ [] →
  ZoneDevice_scan (pre ++ d :: post) = Some {| dev := d |}.
Proof.
  intros Hpre Hd. induction Hpre as [| x pre Hx _ IH]; simpl.
  - unfold serviceClient.
    destruct (goupnp.FindService d av1.URN_AVTransport_1); [contradiction | reflexivity].
  - unfold serviceClient at 1. rewrite Hx. exact IH.
Qed.

Lemma ZoneDevice_scan_none (devs : list goupnp.Device) :
  Forall (λ x, goupnp.FindService x av1.URN_AVTransport_1 = []) devs →
  ZoneDevice_scan devs = None.
Proof.
  intros Hall. induction Hall as [| x devs Hx _ IH]; simpl; [reflexivity |].
  unfold serviceClient. rewrite Hx. exact IH.
Qed.

(** The handle [ZoneDevice] returns is on a device with the AV1 service. *)
Lemma ZoneDevice_scan_AV1 (devs : list goupnp.Device) (d : Device) :
  ZoneDevice_scan devs = Some d →
  dev d ∈ devs ∧ ∃ sc, serviceClient (dev d) av1.URN_AVTransport_1 = Ok sc.
Proof.
  induction devs as [| x devs IH]; simpl; [discriminate |].
  destruct (serviceClient x av1.URN_AVTransport_1) as [sc |] eqn:Hx.
  - intros [= <-]. simpl. split; [apply list_elem_of_here | by exists sc].
  - intros Hd. destruct (IH Hd) as [Hin Hsc]. split; [by apply list_elem_of_further | exact Hsc].
Qed.

(** C1: a zone that is no key of the mapping, or has no device recorded,
    makes [ZoneDevice] fail with the unknown-zone error.  For a zone that is a
    key, the handle is on the first device of its list that has the AV1
    (transport control) service, the devices before it having none; and when no
    device of the list has it, [ZoneDevice] fails with the other error, that no
    AV1 service was found in the zone.  The clients meant are those of this
    package, [Discover]'s and the zero client, which record no zone without a
    device. *)
Theorem ZoneDevice_spec (c : Client) (ctx : Context) (zone : string) :
  zones_populated c →
  ((zones c !! zone = None ∨ zone_devices c zone = []) →
     ZoneDevice c ctx zone =
       Err (Errorf "unknown zone %q, or it has no devices" [ArgStr zone])) ∧
  (∀ devs pre d post,
     zones c !! zone = Some devs →
     devs = pre ++ d :: post →
     Forall (λ x, goupnp.FindService x av1.URN_AVTransport_1 = []) pre →
     goupnp.FindService d av1.URN_AVTransport_1 ≠ [] →
     ZoneDevice c ctx zone = Ok {| dev := d |}) ∧
  (∀ devs,
     zones c !! zone = Some devs →
     Forall (λ x, goupnp.FindService x av1.URN_AVTransport_1 = []) devs →
     ZoneDevice c ctx zone =
       Err (Errorf "did not find an AV1 service in zone %q" [ArgStr zone])) ∧
  Errorf "unknown zone %q, or it has no devices" [ArgStr zone] ≠
    Errorf "did not find an AV1 service in zone %q" [ArgStr zone].
Proof.
  intros Hpop. split; [| split; [| split]].
  - intros Hno. unfold ZoneDevice.
    destruct (zones c !! zone) as [devs |] eqn:Hl; [| reflexivity].
    destruct Hno as [Hno | Hno]; [discriminate |].
    unfold zone_devices in Hno. rewrite Hl in Hno. simpl in Hno.
    destruct (Hpop zone devs Hl Hno).
  - intros devs pre d post Hl -> Hpre Hd. unfold ZoneDevice. rewrite Hl.
    rewrite (ZoneDevice_scan_first pre post d Hpre Hd). reflexivity.
  - intros devs Hl Hall. unfold ZoneDevice. rewrite Hl.
    rewrite (ZoneDevice_scan_none devs Hall). reflexivity.
  - discriminate.
Qed.

Lemma ZoneDevice_spec_witness :
  zones_populated Sample.client ∧
  ZoneDevice Sample.client Sample.live "Kitchen" = Ok {| dev := Sample.kitchen |} ∧
  ZoneDevice Sample.client Sample.live "Attic" =
    Err (Errorf "unknown zone %q, or it has no devices" [ArgStr "Attic"]) ∧
  ZoneDevice Sample.client Sample.live "Hall" =
    Err (Errorf "did not find an AV1 service in zone %q" [ArgStr "Hall"]).
Proof.
  assert (Hpop : zones_populated Sample.client).
  { exact (Discover_zones_populated (Sample.net "") Sample.live no_effects Sample.client
             (Sample_Discover "")). }
  split; [exact Hpop |]. split.
  - refine (proj1 (proj2 (ZoneDevice_spec Sample.client Sample.live "Kitchen" Hpop))
              [Sample.bridge; Sample.kitchen] [Sample.bridge] Sample.kitchen []
              eq_refl eq_refl _ _).
    + constructor; [reflexivity | constructor].
    + discriminate.
  - split.
    + exact (proj1 (ZoneDevice_spec Sample.client Sample.live "Attic" Hpop)
               (or_introl eq_refl)).
    + refine (proj1 (proj2 (proj2 (ZoneDevice_spec Sample.client Sample.live "Hall" Hpop)))
                [Sample.boost] eq_refl _).
      constructor; [reflexivity | constructor].
Defined.

(** In the earlier revision both failures are one: a zone that is no key
    gets the error of a zone without an AV1 service. *)
Lemma sonos_go_ZoneDevice_unknown (c : Client) (ctx : Context) (zone : string) :
  zones c !! zone = None →
  sonos_go.ZoneDevice c ctx zone =
    Err (Errorf "did not find an AV1 service in zone %q" [ArgStr zone]).
Proof.
  intros Hl. unfold sonos_go.ZoneDevice, zone_devices. rewrite Hl. reflexivity.
Qed.

(** For a zone that is a key, the two revisions choose the same device. *)
Lemma sonos_go_ZoneDevice_known (c : Client) (ctx : Context) (zone : string)
    (devs : list goupnp.Device) :
  zones c !! zone = Some devs →
  match ZoneDevice c ctx zone, sonos_go.ZoneDevice c ctx zone with
  | Ok d, Ok d' => dev d = sonos_go.dev d'
  | Err e, Err e' => e = e'
  | _, _ => False
  end.
Proof.
  intros Hl. unfold ZoneDevice, sonos_go.ZoneDevice, zone_devices. rewrite Hl. simpl.
  clear Hl. induction devs as [| x devs IH]; simpl; [reflexivity |].
  unfold serviceClient at 1.
  destruct (goupnp.FindService x av1.URN_AVTransport_1); [exact IH | reflexivity].
Qed.

(** ** Loading a playlist *)

Lemma LoadSonosPlaylist_uri_first (pre post : list Container) (c : Container)
    (playlistName : string) :
  Forall (λ x, Title x ≠ playlistName) pre →
  Title c = playlistName →
  LoadSonosPlaylist_uri (pre ++ c :: post) playlistName = Res c.
Proof.
  intros Hpre Hc. induction Hpre as [| x pre Hx _ IH]; simpl.
  - apply String.eqb_eq in Hc. rewrite Hc. reflexivity.
  - apply String.eqb_neq in Hx. rewrite Hx. exact IH.
Qed.

Lemma LoadSonosPlaylist_uri_none (didl : list Container) (playlistName : string) :
  Forall (λ x, Title x ≠ playlistName) didl →
  LoadSonosPlaylist_uri didl playlistName = "".
Proof.
  intros Hall. induction Hall as [| x didl Hx _ IH]; simpl; [reflexivity |].
  apply String.eqb_neq in Hx. rewrite Hx. exact IH.
Qed.

Lemma LoadSonosPlaylist_add_found net d ctx playlistName didl sc fx :
  serviceClient (dev d) av1.URN_AVTransport_1 = Ok sc →
  LoadSonosPlaylist_uri didl playlistName ≠ "" →
  LoadSonosPlaylist_add net d ctx playlistName didl fx =
    (match env_PerformAction net (calls fx) ctx sc av1.URN_AVTransport_1 "AddURIToQueue"
             (AddURIToQueue_in (LoadSonosPlaylist_uri didl playlistName)) with
     | Err e => Some (Errorf "adding to queue: %w" [ArgErr e])
     | Ok _ => None
     end,
     record_call
       (CallPerformActionCtx ctx sc av1.URN_AVTransport_1 "AddURIToQueue"
          (AddURIToQueue_in (LoadSonosPlaylist_uri didl playlistName))) fx).
Proof.
  intros Hsc Huri. unfold LoadSonosPlaylist_add.
  destruct (decide (LoadSonosPlaylist_uri didl playlistName = "")) as [He | _];
    [contradiction |].
  unfold mbind, M_bind. rewrite (soap_resolved net d ctx _ _ _ sc fx Hsc).
  unfold AddURIToQueue_in.
  destruct (env_PerformAction net (calls fx) ctx sc _ _ _); reflexivity.
Qed.

Lemma LoadSonosPlaylist_add_missing net d ctx playlistName didl fx :
  LoadSonosPlaylist_uri didl playlistName = "" →
  LoadSonosPlaylist_add net d ctx playlistName didl fx =
    (Some (playlist_not_found playlistName (Z.of_nat (length didl))), fx).
Proof.
  intros Huri. unfold LoadSonosPlaylist_add.
  destruct (decide (LoadSonosPlaylist_uri didl playlistName = "")) as [_ | Hne];
    [reflexivity | contradiction].
Qed.

(** C2, as the code has it: the entries are scanned in order for the first
    one whose title is the requested name, character for character.  When
    that entry has a resource locator that is not empty, one call is made, the
    AddURIToQueue action of the AV1 service, with that locator as enqueued URI.
    When no entry has the title, the empty listing included, or when the first
    one that has it has an empty locator, no call is made and the error is that
    the playlist was not found, with the number of entries of the listing. *)
Theorem LoadSonosPlaylist_add_spec (net : Env) (d : Device) (ctx : Context)
    (playlistName : string) (didl : list Container) (sc : soap.SOAPClient) (fx : Effects) :
  serviceClient (dev d) av1.URN_AVTransport_1 = Ok sc →
  (∀ pre c post,
     didl = pre ++ c :: post →
     Forall (λ x, Title x ≠ playlistName) pre →
     Title c = playlistName →
     Res c ≠ "" →
     calls (LoadSonosPlaylist_add net d ctx playlistName didl fx).2 =
       calls fx ++ [CallPerformActionCtx ctx sc av1.URN_AVTransport_1 "AddURIToQueue"
                      (AddURIToQueue_in (Res c))] ∧
     (LoadSonosPlaylist_add net d ctx playlistName didl fx).1 =
       match env_PerformAction net (calls fx) ctx sc av1.URN_AVTransport_1 "AddURIToQueue"
               (AddURIToQueue_in (Res c)) with
       | Err e => Some (Errorf "adding to queue: %w" [ArgErr e])
       | Ok _ => None
       end) ∧
  (Forall (λ x, Title x ≠ playlistName) didl →
     LoadSonosPlaylist_add net d ctx playlistName didl fx =
       (Some (playlist_not_found playlistName (Z.of_nat (length didl))), fx)) ∧
  (∀ pre c post,
     didl = pre ++ c :: post →
     Forall (λ x, Title x ≠ playlistName) pre →
     Title c = playlistName →
     Res c = "" →
     LoadSonosPlaylist_add net d ctx playlistName didl fx =
       (Some (playlist_not_found playlistName (Z.of_nat (length didl))), fx)) ∧
  LoadSonosPlaylist_add net d ctx playlistName [] fx =
    (Some (playlist_not_found playlistName 0), fx) ∧
  (∀ c1 c2 c3,
     Title c1 ≠ playlistName → Title c2 ≠ playlistName → Title c3 ≠ playlistName →
     LoadSonosPlaylist_add net d ctx playlistName [c1; c2; c3] fx =
       (Some (playlist_not_found playlistName 3), fx)).
Proof.
  intros Hsc. split; [| split; [| split; [| split]]].
  - intros pre c post -> Hpre Hc Hres.
    pose proof (LoadSonosPlaylist_uri_first pre post c playlistName Hpre Hc) as Huri.
    rewrite (LoadSonosPlaylist_add_found net d ctx playlistName _ sc fx Hsc)
      by (rewrite Huri; exact Hres).
    rewrite Huri. split; reflexivity.
  - intros Hall. apply LoadSonosPlaylist_add_missing.
    apply LoadSonosPlaylist_uri_none. exact Hall.
  - intros pre c post -> Hpre Hc Hres. apply LoadSonosPlaylist_add_missing.
    rewrite (LoadSonosPlaylist_uri_first pre post c playlistName Hpre Hc). exact Hres.
  - reflexivity.
  - intros c1 c2 c3 H1 H2 H3.
    apply (LoadSonosPlaylist_add_missing net d ctx playlistName [c1; c2; c3] fx).
    apply LoadSonosPlaylist_uri_none. repeat constructor; assumption.
Qed.

Lemma LoadSonosPlaylist_add_spec_witness :
  serviceClient Sample.kitchen av1.URN_AVTransport_1 =
    Ok {| soap.EndpointURL := "http://10.0.0.4:1400/MediaRenderer/AVTransport/Control" |} ∧
  calls (LoadSonosPlaylist_add (Sample.net "") Sample.player Sample.live "Jazz"
           [Sample.morning; Sample.jazz; Sample.dinner] no_effects).2 =
    [CallPerformActionCtx Sample.live
       {| soap.EndpointURL := "http://10.0.0.4:1400/MediaRenderer/AVTransport/Control" |}
       av1.URN_AVTransport_1 "AddURIToQueue"
       (AddURIToQueue_in "file:///jffs/settings/savedqueues.rsq#1")].
Proof.
  split; [reflexivity |].
  refine (proj1 (proj1 (LoadSonosPlaylist_add_spec (Sample.net "") Sample.player Sample.live
                          "Jazz" [Sample.morning; Sample.jazz; Sample.dinner] _ no_effects
                          eq_refl)
                   [Sample.morning] Sample.jazz [Sample.dinner] eq_refl _ eq_refl _)).
  - constructor; [discriminate | constructor].
  - discriminate.
Defined.

(** The titles are compared as they are, capitals included. *)
Example LoadSonosPlaylist_uri_case :
  LoadSonosPlaylist_uri [Sample.morning; Sample.jazz; Sample.dinner] "jazz" = "" ∧
  LoadSonosPlaylist_uri [Sample.morning; Sample.jazz; Sample.dinner] "Jazz" =
    "file:///jffs/settings/savedqueues.rsq#1".
Proof. split; reflexivity. Qed.

(** C2 does not hold as the specification states it.  On a listing whose
    entry with the requested title has no locator, the first entry with the
    title is there, and no AddURIToQueue call is made: the only call is the
    Browse, and the error is that the playlist was not found. *)
Lemma LoadSonosPlaylist_empty_locator :
  env_Unmarshal (Sample.net Sample.bare_xml) Sample.bare_xml = ([Sample.bare], None) ∧
  Title Sample.bare = "Jazz" ∧
  LoadSonosPlaylist (Sample.net Sample.bare_xml) Sample.player Sample.live "Jazz" no_effects =
    (Some (playlist_not_found "Jazz" 1),
     record_call
       (CallPerformActionCtx Sample.live
          {| soap.EndpointURL :=
               "http://10.0.0.4:1400/MediaServer/ContentDirectory/Control" |}
          av1.URN_ContentDirectory_1 "Browse" Browse_in) no_effects).
Proof. repeat split. Qed.

(** Once the Browse call has answered, [LoadSonosPlaylist] goes on with the
    entries [xml.Unmarshal] left, whatever error came with them. *)
Lemma LoadSonosPlaylist_browsed net d ctx playlistName sc raw fx :
  serviceClient (dev d) av1.URN_ContentDirectory_1 = Ok sc →
  env_PerformAction net (calls fx) ctx sc av1.URN_ContentDirectory_1 "Browse" Browse_in
    = Ok raw →
  LoadSonosPlaylist net d ctx playlistName fx =
    LoadSonosPlaylist_add net d ctx playlistName (env_Unmarshal net (field "Result" raw)).1
      (record_call
         (CallPerformActionCtx ctx sc av1.URN_ContentDirectory_1 "Browse" Browse_in) fx).
Proof.
  intros Hsc Hraw. unfold LoadSonosPlaylist, mbind, M_bind.
  rewrite (soap_resolved net d ctx _ _ _ sc fx Hsc).
  unfold Browse_in in Hraw. rewrite Hraw.
  destruct (env_Unmarshal net (field "Result" raw)) as [didl err]. reflexivity.
Qed.

Lemma LoadSonosPlaylist_add_no_unmarshal_error net d ctx playlistName didl fx e :
  (LoadSonosPlaylist_add net d ctx playlistName didl fx).1 ≠
    Some (Errorf "unmarshaling DIDL-Lite XML: %w" [ArgErr e]).
Proof.
  unfold LoadSonosPlaylist_add.
  destruct (decide (LoadSonosPlaylist_uri didl playlistName = "")); [discriminate |].
  unfold mbind, M_bind.
  destruct (soap net d ctx _ _ _ fx) as [[resp | e'] fx']; discriminate.
Qed.

(** Whatever happens, the error of a failed decoding never comes out. *)
Lemma LoadSonosPlaylist_no_unmarshal_error net d ctx playlistName fx e :
  (LoadSonosPlaylist net d ctx playlistName fx).1 ≠
    Some (Errorf "unmarshaling DIDL-Lite XML: %w" [ArgErr e]).
Proof.
  unfold LoadSonosPlaylist, mbind, M_bind.
  destruct (soap net d ctx _ _ _ fx) as [[raw | e'] fx']; [| discriminate].
  destruct (env_Unmarshal net (field "Result" raw)) as [didl err].
  apply LoadSonosPlaylist_add_no_unmarshal_error.
Qed.

(** The reach of the stale [err]: the [if] after [xml.Unmarshal] tests the
    error of the Browse call, so when the result of the Browse call does not
    decode, the return of the decoding error under it is never taken and
    [LoadSonosPlaylist] goes on with the entries that were decoded before the
    failure.  Only when no entry was decoded does it fail with the error that
    the playlist was not found reporting 0 entries. *)
Theorem LoadSonosPlaylist_unmarshal_error_dropped (net : Env) (d : Device) (ctx : Context)
    (playlistName : string) (sc : soap.SOAPClient) (raw : fields) (didl : list Container)
    (e : error) (fx : Effects) :
  serviceClient (dev d) av1.URN_ContentDirectory_1 = Ok sc →
  env_PerformAction net (calls fx) ctx sc av1.URN_ContentDirectory_1 "Browse" Browse_in
    = Ok raw →
  env_Unmarshal net (field "Result" raw) = (didl, Some e) →
  let fx' := record_call
               (CallPerformActionCtx ctx sc av1.URN_ContentDirectory_1 "Browse" Browse_in)
               fx in
  LoadSonosPlaylist net d ctx playlistName fx =
    LoadSonosPlaylist_add net d ctx playlistName didl fx' ∧
  (∀ e', (LoadSonosPlaylist net d ctx playlistName fx).1 ≠
           Some (Errorf "unmarshaling DIDL-Lite XML: %w" [ArgErr e'])) ∧
  (didl = [] →
     LoadSonosPlaylist net d ctx playlistName fx =
       (Some (playlist_not_found playlistName 0), fx')).
Proof.
  intros Hsc Hraw Hxml fx'.
  pose proof (LoadSonosPlaylist_browsed net d ctx playlistName sc raw fx Hsc Hraw) as Hgo.
  rewrite Hxml in Hgo. simpl in Hgo. split; [exact Hgo |]. split.
  - intros e'. apply LoadSonosPlaylist_no_unmarshal_error.
  - intros ->. rewrite Hgo. reflexivity.
Qed.

Lemma LoadSonosPlaylist_unmarshal_error_dropped_witness :
  serviceClient Sample.kitchen av1.URN_ContentDirectory_1 =
    Ok {| soap.EndpointURL := "http://10.0.0.4:1400/MediaServer/ContentDirectory/Control" |} ∧
  env_Unmarshal (Sample.net "no listing") "no listing" = ([], Some (LibError "EOF")) ∧
  LoadSonosPlaylist (Sample.net "no listing") Sample.player Sample.live "Jazz" no_effects =
    (Some (playlist_not_found "Jazz" 0),
     record_call
       (CallPerformActionCtx Sample.live
          {| soap.EndpointURL :=
               "http://10.0.0.4:1400/MediaServer/ContentDirectory/Control" |}
          av1.URN_ContentDirectory_1 "Browse" Browse_in) no_effects).
Proof.
  split; [reflexivity |]. split; [reflexivity |].
  exact (proj2 (proj2 (LoadSonosPlaylist_unmarshal_error_dropped (Sample.net "no listing")
                         Sample.player Sample.live "Jazz" _ [("Result", "no listing")] []
                         (LibError "EOF") no_effects eq_refl eq_refl eq_refl))
           eq_refl).
Defined.

(** C9: the code at the input where it departs from the claim.  On a
    listing cut after its first entry [xml.Unmarshal] fails with a syntax
    error, and [LoadSonosPlaylist], whose [if] tests the error of the Browse
    call and not this one, does not return the decoding error it is written to
    return: it goes on with the entry decoded before the cut.  That entry is
    found and enqueued when it is the one asked for, so that the operation
    succeeds, and counted when it is not, so that the count reported is 1 and
    not 0. *)
Lemma LoadSonosPlaylist_cut_listing :
  env_Unmarshal (Sample.net Sample.cut_xml) Sample.cut_xml =
    ([Sample.morning], Some (LibError "XML syntax error on line 1: unexpected EOF")) ∧
  (LoadSonosPlaylist (Sample.net Sample.cut_xml) Sample.player Sample.live "Morning"
     no_effects).1 = None ∧
  (LoadSonosPlaylist (Sample.net Sample.cut_xml) Sample.player Sample.live "Jazz"
     no_effects).1 = Some (playlist_not_found "Jazz" 1) ∧
  playlist_not_found "Jazz" 1 ≠ playlist_not_found "Jazz" 0.
Proof. repeat split. discriminate. Qed.

(** ** The context *)

(** Nothing is added to the calls. *)
Ltac no_new_call := exists []; split; [by rewrite app_nil_r | constructor].

Lemma soap_one_call net d ctx serviceType action inAction fx :
  one_call net ctx fx (soap net d ctx serviceType action inAction fx).1
    (soap net d ctx serviceType action inAction fx).2.
Proof.
  unfold soap. destruct (serviceClient (dev d) serviceType) as [sc | e]; simpl.
  - split.
    + eexists. split; [reflexivity |]. split; [| simpl; lia].
      constructor; [reflexivity | constructor].
    + intros Hhon Hdone. apply Hhon. exact Hdone.
  - split.
    + exists []. split; [by rewrite app_nil_r |]. split; [constructor | simpl; lia].
    + intros _ _. by exists e.
Qed.

(** An operation made of one [soap] call whose error it wraps. *)
Lemma wrapped_one_call net ctx fx (m : M (result fields)) (format : string) :
  one_call net ctx fx (m fx).1 (m fx).2 →
  let op : M (option error) :=
    r ← m; match r with
           | Err e => mret (Some (Errorf format [ArgErr e]))
           | Ok _ => mret None
           end in
  (∃ new, calls (op fx).2 = calls fx ++ new ∧ Forall (carries ctx) new ∧
          (length new ≤ 1)%nat) ∧
  (honours_context net → ctx_done ctx = true → is_Some (op fx).1).
Proof.
  intros [Hnew Hdone]. simpl. unfold mbind, M_bind.
  destruct (m fx) as [[resp | e] fx']; simpl in *.
  - split; [exact Hnew |]. intros Hhon Hd. destruct (Hdone Hhon Hd) as [e He]. discriminate.
  - split; [exact Hnew |]. intros _ _. by eexists.
Qed.

Lemma LoadSonosPlaylist_add_calls net d ctx playlistName didl fx :
  (∃ new, calls (LoadSonosPlaylist_add net d ctx playlistName didl fx).2 = calls fx ++ new ∧
          Forall (carries ctx) new ∧ (length new ≤ 1)%nat) ∧
  (honours_context net → ctx_done ctx = true →
   is_Some (LoadSonosPlaylist_add net d ctx playlistName didl fx).1).
Proof.
  unfold LoadSonosPlaylist_add.
  destruct (decide (LoadSonosPlaylist_uri didl playlistName = "")).
  - simpl. split; [| intros _ _; by eexists].
    exists []. split; [by rewrite app_nil_r |]. split; [constructor | simpl; lia].
  - apply (wrapped_one_call net ctx fx _ "adding to queue: %w"), soap_one_call.
Qed.

Lemma perform_calls net d ctx op fx :
  ∃ new, calls (perform net d ctx op fx).2 = calls fx ++ new ∧ Forall (carries ctx) new.
Proof.
  destruct op; simpl;
    try (edestruct (wrapped_one_call net ctx fx) as [[new [Hc [Hall _]]] _];
         [apply soap_one_call | exists new; split; [exact Hc | exact Hall]]).
  unfold LoadSonosPlaylist, mbind, M_bind.
  pose proof (soap_one_call net d ctx av1.URN_ContentDirectory_1 "Browse" Browse_in fx)
    as [[new [Hc [Hall _]]] _].
  unfold Browse_in in *.
  destruct (soap net d ctx av1.URN_ContentDirectory_1 "Browse" _ fx) as [[raw | e] fx'];
    simpl in *; [| by exists new].
  destruct (env_Unmarshal net (field "Result" raw)) as [didl err].
  destruct (LoadSonosPlaylist_add_calls net d ctx playlistName didl fx')
    as [[new' [Hc' [Hall' _]]] _].
  exists (new ++ new'). split.
  - rewrite Hc', Hc, app_assoc. reflexivity.
  - apply Forall_app. by split.
Qed.

Lemma perform_done net d ctx op fx :
  honours_context net → ctx_done ctx = true →
  is_Some (perform net d ctx op fx).1 ∧
  (length (calls (perform net d ctx op fx).2) ≤ length (calls fx) + 1)%nat.
Proof.
  intros Hhon Hdone.
  destruct op; simpl;
    try (edestruct (wrapped_one_call net ctx fx) as [[new [Hc [_ Hlen]]] Hsome];
         [apply soap_one_call |
          split;
          [exact (Hsome Hhon Hdone) |
           unfold Ungroup, ClearQueue, SetPlayMode, SetVolume, SetSleepTimer, Play;
           cbv zeta; rewrite Hc, length_app; lia]]).
  unfold LoadSonosPlaylist, mbind, M_bind.
  pose proof (soap_one_call net d ctx av1.URN_ContentDirectory_1 "Browse" Browse_in fx)
    as [[new [Hc [_ Hlen]]] Herr].
  destruct (Herr Hhon Hdone) as [e He].
  unfold Browse_in in *.
  destruct (soap net d ctx av1.URN_ContentDirectory_1 "Browse" _ fx) as [r fx'].
  simpl in *. subst r. simpl. split; [by eexists |].
  rewrite Hc, length_app. lia.
Qed.

Lemma Discover_visit_calls net ctx c mrd fx :
  ∃ new, calls (Discover_visit net ctx c mrd fx).2 = calls fx ++ new ∧
         Forall (carries ctx) new.
Proof.
  destruct mrd as [loc dev | loc e]; simpl.
  - destruct (Contains (goupnp.Manufacturer dev) "Sonos, Inc."); simpl;
      [| no_new_call].
    destruct (goupnp.FindService dev devPropertiesService) as [| svc rest]; simpl;
      [no_new_call |].
    unfold mbind, M_bind, PerformActionCtx.
    destruct (env_PerformAction net (calls fx) ctx (NewSOAPClient svc)
                (goupnp.ServiceType svc) "GetZoneAttributes" []); simpl;
      (eexists; split; [reflexivity | constructor; [reflexivity | constructor]]).
  - no_new_call.
Qed.

Lemma Discover_loop_calls net ctx mrds c fx :
  ∃ new, calls (Discover_loop net ctx mrds c fx).2 = calls fx ++ new ∧
         Forall (carries ctx) new.
Proof.
  revert c fx. induction mrds as [| mrd rest IH]; intros c fx; simpl.
  - no_new_call.
  - unfold mbind, M_bind.
    destruct (Discover_visit_calls net ctx c mrd fx) as [new [Hc Hall]].
    destruct (Discover_visit net ctx c mrd fx) as [c' fx']. simpl in Hc.
    destruct (IH c' fx') as [new' [Hc' Hall']].
    exists (new ++ new'). split.
    + rewrite Hc', Hc, app_assoc. reflexivity.
    + apply Forall_app. by split.
Qed.

Lemma Discover_calls net ctx fx :
  ∃ new, calls (Discover net ctx fx).2 =
           calls fx ++ CallDiscoverDevices devPropertiesService :: new ∧
         Forall (carries ctx) new.
Proof.
  rewrite Discover_unfold.
  destruct (env_DiscoverDevices net (calls fx) devPropertiesService) as [mrds | e]; simpl.
  - destruct (Discover_loop_calls net ctx mrds {| devices := []; zones := ∅ |}
                (record_call (CallDiscoverDevices devPropertiesService) fx))
      as [new [Hc Hall]].
    exists new. split; [| exact Hall].
    rewrite Hc. simpl. rewrite <- app_assoc. reflexivity.
  - exists []. split; [reflexivity | constructor].
Qed.

(** Under a context that is done no zone query succeeds. *)
Lemma zone_query_fails_done net ctx dev :
  honours_context net → ctx_done ctx = true → zone_query_fails net ctx dev.
Proof.
  intros Hhon Hdone. unfold zone_query_fails.
  destruct (goupnp.FindService dev devPropertiesService) as [| svc rest]; [exact I |].
  intros history. apply Hhon. exact Hdone.
Qed.

Lemma Discover_done net ctx fx :
  honours_context net → ctx_done ctx = true →
  match env_DiscoverDevices net (calls fx) devPropertiesService with
  | Ok mrds => ∃ c, (Discover net ctx fx).1 = Ok c ∧ zones c = ∅
  | Err e => (Discover net ctx fx).1 = Err (Errorf "discovering AV1: %w" [ArgErr e])
  end.
Proof.
  intros Hhon Hdone. rewrite Discover_unfold.
  destruct (env_DiscoverDevices net (calls fx) devPropertiesService) as [mrds | e]; simpl;
    [| reflexivity].
  eexists. split; [reflexivity |].
  apply (Discover_loop_invariant net ctx (λ c, zones c = ∅)); [| reflexivity].
  intros c mrd fx0 Hc.
  pose proof (Discover_visit_client net ctx c mrd fx0) as Hv. simpl in Hv.
  destruct mrd as [loc dev | loc e]; [| by rewrite Hv].
  destruct (Contains (goupnp.Manufacturer dev) "Sonos, Inc."); [| by rewrite Hv].
  destruct Hv as [_ [Hz | [zone [_ Hans]]]]; [by rewrite Hz |].
  destruct (Hans (zone_query_fails_done net ctx dev Hhon Hdone)).
Qed.

(** X1: where the context goes.  Every action a control operation invokes,
    and every zone query of [Discover], is made with the context of the caller; a
    control operation given a context that is done fails, the SOAP library
    answering its first call by an error, and makes no call after that one.
    The probe is the one call made without the context: [Discover] makes it
    first whatever the context is, and, given a context that is done, returns a
    client all the same when the probe answers, one that records no zone. *)
Theorem context_reaches_actions (net : Env) (ctx : Context) :
  (∀ d op fx,
     ∃ new, calls (perform net d ctx op fx).2 = calls fx ++ new ∧
            Forall (carries ctx) new) ∧
  (∀ fx,
     ∃ new, calls (Discover net ctx fx).2 =
              calls fx ++ CallDiscoverDevices devPropertiesService :: new ∧
            Forall (carries ctx) new) ∧
  (honours_context net ∧ ctx_done ctx = true →
   (∀ d op fx,
      is_Some (perform net d ctx op fx).1 ∧
      (length (calls (perform net d ctx op fx).2) ≤ length (calls fx) + 1)%nat) ∧
   (∀ fx mrds,
      env_DiscoverDevices net (calls fx) devPropertiesService = Ok mrds →
      ∃ c, (Discover net ctx fx).1 = Ok c ∧ zones c = ∅)).
Proof.
  split; [| split].
  - intros d op fx. apply perform_calls.
  - intros fx. apply Discover_calls.
  - intros [Hhon Hdone]. split.
    + intros d op fx. apply perform_done; assumption.
    + intros fx mrds Hprobe.
      pose proof (Discover_done net ctx fx Hhon Hdone) as HD.
      rewrite Hprobe in HD. exact HD.
Qed.

Lemma Sample_net_honours_context (browsed : string) : honours_context (Sample.net browsed).
Proof.
  intros history ctx sc ns action inAction Hdone. simpl. unfold Sample.PerformAction.
  rewrite Hdone. by eexists.
Qed.

(** C4: every network call is to receive the context of the caller, the
    probe as well as the zone queries and the actions, so that an operation
    given a cancelled context fails before anything goes out.  [Discover] does
    not do that: it hands the context to its zone queries and not to the probe.
    Given a context that is done, in a household whose SOAP library honours the
    context, it makes the probe, has each zone query refused, and returns a
    client without error. *)
Lemma Discover_cancelled_context :
  ctx_done Sample.cancelled = true ∧
  honours_context (Sample.net "") ∧
  (Discover (Sample.net "") Sample.cancelled no_effects).1 =
    Ok {| devices := [Sample.bridge; Sample.kitchen; Sample.attic; Sample.boost];
          zones := ∅ |} ∧
  head (calls (Discover (Sample.net "") Sample.cancelled no_effects).2) =
    Some (CallDiscoverDevices devPropertiesService).
Proof.
  split; [reflexivity |]. split; [apply Sample_net_honours_context |].
  split; vm_compute; reflexivity.
Qed.

Lemma context_reaches_actions_witness :
  honours_context (Sample.net Sample.listing_xml) ∧
  ctx_done Sample.cancelled = true ∧
  is_Some (perform (Sample.net Sample.listing_xml) Sample.player Sample.cancelled
             (OpLoadSonosPlaylist "Jazz") no_effects).1 ∧
  (length (calls (perform (Sample.net Sample.listing_xml) Sample.player Sample.cancelled
                    (OpLoadSonosPlaylist "Jazz") no_effects).2) ≤ 1)%nat.
Proof.
  pose proof (Sample_net_honours_context Sample.listing_xml) as Hhon.
  split; [exact Hhon |]. split; [reflexivity |].
  exact (proj1 (proj2 (proj2 (context_reaches_actions (Sample.net Sample.listing_xml)
                                Sample.cancelled))
                  (conj Hhon eq_refl))
           Sample.player (OpLoadSonosPlaylist "Jazz") no_effects).
Defined.

(** A handle that [ZoneDevice] returns is on a device of the zone that has
    the AV1 service: the operations on that service find their endpoint. *)
Lemma ZoneDevice_handle_AV1 (c : Client) (ctx : Context) (zone : string) (d : Device) :
  ZoneDevice c ctx zone = Ok d →
  dev d ∈ zone_devices c zone ∧ ∃ sc, serviceClient (dev d) av1.URN_AVTransport_1 = Ok sc.
Proof.
  unfold ZoneDevice, zone_devices.
  destruct (zones c !! zone) as [devs |]; [| discriminate]. simpl.
  destruct (ZoneDevice_scan devs) as [d' |] eqn:Hscan; [| discriminate].
  intros [= <-]. apply ZoneDevice_scan_AV1. exact Hscan.
Qed.

(** On a device without the rendering-control service [SetVolume] makes no
    call: the error of the resolution comes back, wrapped. *)
Lemma SetVolume_unresolved (net : Env) (d : Device) (ctx : Context) (volume : Z)
    (e : error) (fx : Effects) :
  serviceClient (dev d) "urn:schemas-upnp-org:service:RenderingControl:1" = Err e →
  SetVolume net d ctx volume fx = (Some (Errorf "setting volume: %w" [ArgErr e]), fx).
Proof.
  intros Hsc. unfold SetVolume, mbind, M_bind.
  rewrite (soap_unresolved net d ctx _ _ _ e fx Hsc). reflexivity.
Qed.

(** * Further properties *)

(** ** The calls of discovery *)

Lemma FindService_type (device : goupnp.Device) (serviceType : string) (s : goupnp.Service) :
  s ∈ goupnp.FindService device serviceType → goupnp.ServiceType s = serviceType.
Proof. unfold goupnp.FindService. rewrite list_elem_of_filter. by intros [Ht _]. Qed.

Lemma zone_query_shape ctx dev call :
  call ∈ zone_query ctx dev →
  ∃ svc, svc ∈ goupnp.Services dev ∧
         call = CallPerformActionCtx ctx (NewSOAPClient svc) devPropertiesService
                  "GetZoneAttributes" [].
Proof.
  unfold zone_query.
  destruct (goupnp.FindService dev devPropertiesService) as [| svc rest] eqn:Hf;
    [by intros ?%elem_of_nil |].
  intros ->%list_elem_of_singleton.
  assert (Hin : svc ∈ goupnp.FindService dev devPropertiesService)
    by (rewrite Hf; apply list_elem_of_here).
  exists svc. split.
  - unfold goupnp.FindService in Hin. by apply list_elem_of_filter in Hin as [_ Hin].
  - by rewrite (FindService_type dev devPropertiesService svc Hin).
Qed.

Lemma Discover_visit_trace net ctx c mrd fx :
  calls (Discover_visit net ctx c mrd fx).2 =
    calls fx ++ zone_queries ctx (sonos_devices [mrd]).
Proof.
  destruct mrd as [loc dev | loc e]; simpl; [| by rewrite app_nil_r].
  destruct (Contains (goupnp.Manufacturer dev) "Sonos, Inc."); simpl;
    [| by rewrite app_nil_r].
  unfold zone_query. rewrite app_nil_r.
  destruct (goupnp.FindService dev devPropertiesService) as [| svc rest]; simpl;
    [by rewrite app_nil_r |].
  unfold mbind, M_bind, PerformActionCtx.
  destruct (env_PerformAction net (calls fx) ctx (NewSOAPClient svc)
              (goupnp.ServiceType svc) "GetZoneAttributes" []); reflexivity.
Qed.

Lemma sonos_devices_cons mrd rest :
  sonos_devices (mrd :: rest) = sonos_devices [mrd] ++ sonos_devices rest.
Proof.
  destruct mrd as [loc dev | loc e]; simpl; [| reflexivity].
  destruct (Contains (goupnp.Manufacturer dev) "Sonos, Inc."); reflexivity.
Qed.

Lemma zone_queries_app ctx devs1 devs2 :
  zone_queries ctx (devs1 ++ devs2) = zone_queries ctx devs1 ++ zone_queries ctx devs2.
Proof.
  induction devs1 as [| dev devs1 IH]; simpl; [reflexivity |].
  by rewrite IH, app_assoc.
Qed.

Lemma Discover_loop_trace net ctx mrds c fx :
  calls (Discover_loop net ctx mrds c fx).2 =
    calls fx ++ zone_queries ctx (sonos_devices mrds).
Proof.
  revert c fx. induction mrds as [| mrd rest IH]; intros c fx.
  - simpl. by rewrite app_nil_r.
  - cbn [Discover_loop]. unfold mbind at 1, M_bind.
    pose proof (Discover_visit_trace net ctx c mrd fx) as Hv.
    destruct (Discover_visit net ctx c mrd fx) as [c' fx']. simpl in Hv.
    rewrite IH, Hv, sonos_devices_cons, zone_queries_app, app_assoc. reflexivity.
Qed.

(** X3: the calls of [Discover] are the probe for the device-properties
    service and then, when the probe answers, one GetZoneAttributes action for
    each Sonos device of the answers that advertises that service, in the order
    of the answers, made on a service of that device, in the namespace of the
    device-properties service, without arguments and with the context of the
    caller; no call is made to a device of another vendor. *)
Theorem Discover_trace (net : Env) (ctx : Context) (fx : Effects) :
  calls (Discover net ctx fx).2 =
    calls fx ++
    CallDiscoverDevices devPropertiesService ::
    match env_DiscoverDevices net (calls fx) devPropertiesService with
    | Ok mrds => zone_queries ctx (sonos_devices mrds)
    | Err _ => []
    end ∧
  (∀ mrds call,
     call ∈ zone_queries ctx (sonos_devices mrds) →
     ∃ loc dev svc,
       goupnp.Probed loc dev ∈ mrds ∧
       Contains (goupnp.Manufacturer dev) "Sonos, Inc." = true ∧
       svc ∈ goupnp.Services dev ∧
       call = CallPerformActionCtx ctx (NewSOAPClient svc) devPropertiesService
                "GetZoneAttributes" []).
Proof.
  split.
  - rewrite Discover_unfold.
    destruct (env_DiscoverDevices net (calls fx) devPropertiesService) as [mrds | e];
      simpl; [| reflexivity].
    rewrite Discover_loop_trace. simpl. by rewrite <- app_assoc.
  - intros mrds call. induction mrds as [| mrd rest IH]; [by intros ?%elem_of_nil |].
    rewrite sonos_devices_cons, zone_queries_app, elem_of_app. intros [Hin | Hin].
    + destruct mrd as [loc dev | loc e]; simpl in Hin; [| by apply elem_of_nil in Hin].
      destruct (Contains (goupnp.Manufacturer dev) "Sonos, Inc.") eqn:Hs; simpl in Hin;
        [| by apply elem_of_nil in Hin].
      rewrite app_nil_r in Hin.
      destruct (zone_query_shape ctx dev call Hin) as [svc [Hsvc ->]].
      exists loc, dev, svc. repeat split; [apply list_elem_of_here | exact Hs | exact Hsvc].
    + destruct (IH Hin) as [loc [dev [svc [Hm [Hs [Hsvc ->]]]]]].
      exists loc, dev, svc. repeat split; [by apply list_elem_of_further | exact Hs | exact Hsvc].
Qed.

(** ** Devices and zones, counted *)

Lemma zone_entries_lookup (zs : gmap string (list goupnp.Device)) zone devs :
  zs !! zone = Some devs →
  zone_entries zs ≡ₚ devs ++ zone_entries (delete zone zs).
Proof.
  intros Hl. unfold zone_entries.
  rewrite <- (map_to_list_delete zs zone devs Hl). reflexivity.
Qed.

Lemma zone_entries_insert_fresh (zs : gmap string (list goupnp.Device)) zone devs :
  zs !! zone = None →
  zone_entries (<[zone := devs]> zs) ≡ₚ devs ++ zone_entries zs.
Proof.
  intros Hl. unfold zone_entries. rewrite (map_to_list_insert zs zone devs Hl). reflexivity.
Qed.

(** Appending a device to the list of a zone adds one entry. *)
Lemma zone_entries_append (c : Client) zone dev :
  zone_entries (<[zone := zone_devices c zone ++ [dev]]> (zones c)) ≡ₚ
    dev :: zone_entries (zones c).
Proof.
  unfold zone_devices. destruct (zones c !! zone) as [devs |] eqn:Hl; simpl.
  - rewrite <- insert_delete_eq.
    rewrite zone_entries_insert_fresh by apply lookup_delete_eq.
    rewrite (zone_entries_lookup (zones c) zone devs Hl).
    rewrite <- app_assoc. simpl. by rewrite <- Permutation_middle.
  - by rewrite zone_entries_insert_fresh.
Qed.

Lemma Discover_visit_zones_counted net ctx c mrd fx :
  zones_counted c → zones_counted (Discover_visit net ctx c mrd fx).1.
Proof.
  unfold zones_counted. intros Hc.
  pose proof (Discover_visit_client net ctx c mrd fx) as Hv. simpl in Hv.
  destruct mrd as [loc dev | loc e]; [| by rewrite Hv].
  destruct (Contains (goupnp.Manufacturer dev) "Sonos, Inc."); [| by rewrite Hv].
  destruct Hv as [-> [-> | [zone [-> _]]]].
  - by apply submseteq_inserts_r.
  - rewrite zone_entries_append, <- Permutation_cons_append.
    by apply submseteq_skip.
Qed.

Lemma zone_entries_two (zs : gmap string (list goupnp.Device)) z1 z2 devs1 devs2 :
  z1 ≠ z2 → zs !! z1 = Some devs1 → zs !! z2 = Some devs2 →
  ∃ rest, zone_entries zs ≡ₚ devs1 ++ devs2 ++ rest.
Proof.
  intros Hne H1 H2. exists (zone_entries (delete z2 (delete z1 zs))).
  rewrite (zone_entries_lookup zs z1 devs1 H1).
  rewrite (zone_entries_lookup (delete z1 zs) z2 devs2); [reflexivity |].
  by rewrite lookup_delete_ne.
Qed.

(** X4: the devices recorded under the zones, counted as many times as
    they are recorded, are among the Sonos devices of the answers: a device is
    under no more zones than it has answers.  When those devices are all
    different, no zone lists a device twice and no device is under two
    zones. *)
Theorem Discover_zones_counted (net : Env) (ctx : Context) (fx : Effects)
    (mrds : list goupnp.MaybeRootDevice) (c : Client) :
  env_DiscoverDevices net (calls fx) devPropertiesService = Ok mrds →
  (Discover net ctx fx).1 = Ok c →
  zone_entries (zones c) ⊆+ sonos_devices mrds ∧
  (NoDup (sonos_devices mrds) →
   (∀ zone devs, zones c !! zone = Some devs → NoDup devs) ∧
   (∀ z1 z2 devs1 devs2 d,
      z1 ≠ z2 → zones c !! z1 = Some devs1 → zones c !! z2 = Some devs2 →
      d ∈ devs1 → d ∉ devs2)).
Proof.
  intros Hprobe Hc.
  destruct (Discover_in_order net ctx fx mrds c Hprobe Hc) as [Hdev _].
  assert (Hsub : zone_entries (zones c) ⊆+ sonos_devices mrds).
  { rewrite <- Hdev.
    apply (Discover_invariant net ctx zones_counted fx c); [| | exact Hc].
    - unfold zones_counted, zone_entries. simpl. rewrite map_to_list_empty. constructor.
    - intros c0 mrd fx0. apply Discover_visit_zones_counted. }
  split; [exact Hsub |]. intros Hnd.
  assert (Hnd' : NoDup (zone_entries (zones c))).
  { destruct (submseteq_Permutation _ _ Hsub) as [k Hk].
    rewrite Hk in Hnd. by apply NoDup_app in Hnd as [Hnd _]. }
  split.
  - intros zone devs Hl. rewrite (zone_entries_lookup _ zone devs Hl) in Hnd'.
    by apply NoDup_app in Hnd' as [Hnd' _].
  - intros z1 z2 devs1 devs2 d Hne H1 H2 Hd1 Hd2.
    destruct (zone_entries_two _ z1 z2 devs1 devs2 Hne H1 H2) as [rest Hp].
    rewrite Hp in Hnd'. apply NoDup_app in Hnd' as [_ [Hdis _]].
    apply (Hdis d Hd1). apply elem_of_app. by left.
Qed.

(** ** The log of discovery *)

Lemma Discover_visit_account net ctx c mrd fx :
  ∃ new,
    logged (Discover_visit net ctx c mrd fx).2 = logged fx ++ new ∧
    Forall Discover_log_line new ∧
    (length new + length (zone_entries (zones (Discover_visit net ctx c mrd fx).1)) =
     length (zone_entries (zones c)) + probe_failures [mrd] +
     length (zone_queries ctx (sonos_devices [mrd])))%nat.
Proof.
  destruct mrd as [loc dev | loc e]; simpl.
  - destruct (Contains (goupnp.Manufacturer dev) "Sonos, Inc."); simpl.
    + unfold zone_query. rewrite app_nil_r.
      destruct (goupnp.FindService dev devPropertiesService) as [| svc rest]; simpl.
      { exists []. rewrite app_nil_r. split; [done |]. split; [constructor | simpl; lia]. }
      unfold mbind, M_bind, PerformActionCtx.
      destruct (env_PerformAction net (calls fx) ctx (NewSOAPClient svc)
                  (goupnp.ServiceType svc) "GetZoneAttributes" []) as [resp | e]; simpl.
      * exists []. rewrite app_nil_r. split; [done |]. split; [constructor |].
        pose proof (zone_entries_append
                      {| devices := devices c ++ [dev]; zones := zones c |}
                      (field "CurrentZoneName" resp) dev) as Hp.
        simpl in Hp. apply Permutation_length in Hp. rewrite Hp. simpl. lia.
      * eexists. split; [reflexivity |]. split; [| simpl; lia].
        constructor; [| constructor]. right. by exists e.
    + exists []. rewrite app_nil_r. split; [done |]. split; [constructor | simpl; lia].
  - eexists. split; [reflexivity |]. split; [| simpl; lia].
    constructor; [| constructor]. left. by exists loc, e.
Qed.

Lemma probe_failures_cons mrd rest :
  probe_failures (mrd :: rest) = (probe_failures [mrd] + probe_failures rest)%nat.
Proof. destruct mrd; reflexivity. Qed.

Lemma Discover_loop_account net ctx mrds c fx :
  ∃ new,
    logged (Discover_loop net ctx mrds c fx).2 = logged fx ++ new ∧
    Forall Discover_log_line new ∧
    (length new + length (zone_entries (zones (Discover_loop net ctx mrds c fx).1)) =
     length (zone_entries (zones c)) + probe_failures mrds +
     length (zone_queries ctx (sonos_devices mrds)))%nat.
Proof.
  revert c fx. induction mrds as [| mrd rest IH]; intros c fx.
  - exists []. simpl. rewrite app_nil_r. split; [done |]. split; [constructor | lia].
  - cbn [Discover_loop]. unfold mbind at 1 2, M_bind.
    destruct (Discover_visit_account net ctx c mrd fx) as [new [Hlog [Hall Hn]]].
    destruct (Discover_visit net ctx c mrd fx) as [c' fx']. cbn [fst snd] in Hlog, Hn.
    destruct (IH c' fx') as [new' [Hlog' [Hall' Hn']]].
    exists (new ++ new'). split; [by rewrite Hlog', Hlog, app_assoc |].
    split; [by apply Forall_app |].
    rewrite probe_failures_cons, sonos_devices_cons, zone_queries_app, !length_app. lia.
Qed.

(** X5: [Discover] appends to the log, and only lines of its two kinds, one
    for a failed answer to the probe and one for a refused zone query; the
    lines logged and the devices recorded under zones are together as many as
    the failed answers and the zone queries made, so that every zone query ends
    either under a zone or in the log. *)
Theorem Discover_logs_failures (net : Env) (ctx : Context) (fx : Effects)
    (mrds : list goupnp.MaybeRootDevice) (c : Client) :
  env_DiscoverDevices net (calls fx) devPropertiesService = Ok mrds →
  (Discover net ctx fx).1 = Ok c →
  ∃ new,
    logged (Discover net ctx fx).2 = logged fx ++ new ∧
    Forall Discover_log_line new ∧
    (length new + length (zone_entries (zones c)) =
     probe_failures mrds + length (zone_queries ctx (sonos_devices mrds)))%nat.
Proof.
  intros Hprobe. rewrite Discover_unfold, Hprobe. simpl. intros [= <-].
  destruct (Discover_loop_account net ctx mrds {| devices := []; zones := ∅ |}
              (record_call (CallDiscoverDevices devPropertiesService) fx))
    as [new [Hlog [Hall Hn]]].
  exists new. split; [exact Hlog |]. split; [exact Hall |].
  rewrite Hn. cbn [zones]. unfold zone_entries at 1. rewrite map_to_list_empty. simpl. lia.
Qed.

(** ** The flat list and the zones *)

Lemma elem_of_sonos_devices (mrds : list goupnp.MaybeRootDevice) (d : goupnp.Device) :
  d ∈ sonos_devices mrds ↔
  ∃ loc, goupnp.Probed loc d ∈ mrds ∧
         Contains (goupnp.Manufacturer d) "Sonos, Inc." = true.
Proof.
  induction mrds as [| mrd rest IH]; simpl.
  - split; [by intros ?%elem_of_nil | by intros [loc [?%elem_of_nil _]]].
  - destruct mrd as [loc dev | loc e].
    + destruct (Contains (goupnp.Manufacturer dev) "Sonos, Inc.") eqn:Hs.
      * rewrite elem_of_cons, IH. split.
        -- intros [-> | [loc' [Hin Hc]]].
           ++ exists loc. split; [apply list_elem_of_here | exact Hs].
           ++ exists loc'. split; [by apply list_elem_of_further | exact Hc].
        -- intros [loc' [Hin Hc]]. apply elem_of_cons in Hin as [[= _ ->] | Hin];
             [by left | right; by exists loc'].
      * rewrite IH. split.
        -- intros [loc' [Hin Hc]]. exists loc'. split; [by apply list_elem_of_further | exact Hc].
        -- intros [loc' [Hin Hc]]. apply elem_of_cons in Hin as [[= _ ->] | Hin];
             [congruence | by exists loc'].
    + rewrite IH. split.
      * intros [loc' [Hin Hc]]. exists loc'. split; [by apply list_elem_of_further | exact Hc].
      * intros [loc' [Hin Hc]]. apply elem_of_cons in Hin as [[=] | Hin]. by exists loc'.
Qed.

(** X2: when the probe answers, the flat list of the client is the devices
    of the answers whose manufacturer contains Sonos, Inc., in the order of the
    answers, failed answers and other vendors left out; a device is in it
    exactly when it is in an answer and its manufacturer has that text
    somewhere; and every zone lists its devices in the order of the flat
    list. *)
Theorem Discover_flat_list (net : Env) (ctx : Context) (fx : Effects)
    (mrds : list goupnp.MaybeRootDevice) (c : Client) :
  env_DiscoverDevices net (calls fx) devPropertiesService = Ok mrds →
  (Discover net ctx fx).1 = Ok c →
  devices c = sonos_devices mrds ∧
  (∀ d, d ∈ devices c ↔
        ∃ loc pre post,
          goupnp.Probed loc d ∈ mrds ∧
          goupnp.Manufacturer d = pre +:+ "Sonos, Inc." +:+ post) ∧
  (∀ zone devs, zones c !! zone = Some devs → devs `sublist_of` devices c).
Proof.
  intros Hprobe Hc.
  destruct (Discover_in_order net ctx fx mrds c Hprobe Hc) as [Hdev Hsub].
  split; [exact Hdev |]. split.
  - intros d. rewrite Hdev, elem_of_sonos_devices. split.
    + intros [loc [Hin Hs]]. apply Contains_spec in Hs as [pre [post Hs]].
      by exists loc, pre, post.
    + intros [loc [pre [post [Hin Hs]]]]. exists loc. split; [exact Hin |].
      apply Contains_spec. by exists pre, post.
  - intros zone devs Hl. rewrite Hdev. exact (Hsub zone devs Hl).
Qed.

Lemma Discover_visit_zone_mono net ctx c mrd fx zone d :
  d ∈ zone_devices c zone → d ∈ zone_devices (Discover_visit net ctx c mrd fx).1 zone.
Proof.
  intros Hd. pose proof (Discover_visit_client net ctx c mrd fx) as Hv. simpl in Hv.
  destruct mrd as [loc dev | loc e]; [| by rewrite Hv].
  destruct (Contains (goupnp.Manufacturer dev) "Sonos, Inc."); [| by rewrite Hv].
  destruct Hv as [_ [Hz | [zone' [Hz _]]]]; unfold zone_devices at 1; rewrite Hz;
    [exact Hd |].
  destruct (decide (zone' = zone)) as [-> | Hne].
  - rewrite lookup_insert_eq. simpl. apply elem_of_app. by left.
  - rewrite lookup_insert_ne by exact Hne. exact Hd.
Qed.

Lemma Discover_loop_zone_mono net ctx mrds c fx zone d :
  d ∈ zone_devices c zone → d ∈ zone_devices (Discover_loop net ctx mrds c fx).1 zone.
Proof.
  apply (Discover_loop_invariant net ctx (λ c, d ∈ zone_devices c zone)).
  intros c0 mrd fx0. apply Discover_visit_zone_mono.
Qed.

Lemma Discover_loop_records net ctx mrds c fx loc dev zone :
  goupnp.Probed loc dev ∈ mrds →
  Contains (goupnp.Manufacturer dev) "Sonos, Inc." = true →
  zone_query_answers net ctx dev zone →
  dev ∈ zone_devices (Discover_loop net ctx mrds c fx).1 zone.
Proof.
  intros Hin Hsonos [svc [rest [Hf Hans]]]. revert c fx.
  induction mrds as [| mrd mrds IH]; intros c fx; [by apply elem_of_nil in Hin |].
  cbn [Discover_loop]. unfold mbind at 1, M_bind.
  destruct (Discover_visit net ctx c mrd fx) as [c' fx'] eqn:Hv.
  apply elem_of_cons in Hin as [<- | Hin]; [| by apply IH].
  apply Discover_loop_zone_mono.
  assert (Hc' : c' = (Discover_visit net ctx c (goupnp.Probed loc dev) fx).1)
    by (by rewrite Hv).
  rewrite Hc'. simpl. rewrite Hsonos, Hf. simpl.
  unfold mbind, M_bind, PerformActionCtx.
  destruct (Hans (calls fx)) as [resp [Hr Hz]]. rewrite Hr. simpl. rewrite Hz.
  unfold zone_devices at 1. simpl. rewrite lookup_insert_eq. simpl.
  apply elem_of_app. right. apply list_elem_of_here.
Qed.

Lemma ZoneDevice_scan_some (devs : list goupnp.Device) (dev : goupnp.Device) :
  dev ∈ devs → goupnp.FindService dev av1.URN_AVTransport_1 ≠ [] →
  ∃ d, ZoneDevice_scan devs = Some d.
Proof.
  intros Hin Hav. induction devs as [| x devs IH]; [by apply elem_of_nil in Hin |].
  simpl. unfold serviceClient at 1.
  destruct (goupnp.FindService x av1.URN_AVTransport_1) as [| svc rest] eqn:Hf;
    [| by eexists].
  apply elem_of_cons in Hin as [-> | Hin]; [contradiction | by apply IH].
Qed.

(** X6: a Sonos device of the answers whose zone query is answered with a
    zone name is recorded under that zone in the client [Discover] returns;
    and when the device has the AV1 service, [ZoneDevice] finds a handle for
    that zone. *)
Theorem Discover_zone_recorded (net : Env) (ctx : Context) (fx : Effects)
    (mrds : list goupnp.MaybeRootDevice) (loc : string) (dev : goupnp.Device)
    (zone : string) (c : Client) :
  env_DiscoverDevices net (calls fx) devPropertiesService = Ok mrds →
  (Discover net ctx fx).1 = Ok c →
  goupnp.Probed loc dev ∈ mrds →
  Contains (goupnp.Manufacturer dev) "Sonos, Inc." = true →
  zone_query_answers net ctx dev zone →
  (∃ devs, zones c !! zone = Some devs ∧ dev ∈ devs) ∧
  (goupnp.FindService dev av1.URN_AVTransport_1 ≠ [] →
   ∀ ctx0, ∃ d, ZoneDevice c ctx0 zone = Ok d).
Proof.
  intros Hprobe Hc Hin Hsonos Hans.
  rewrite Discover_unfold, Hprobe in Hc. simpl in Hc. injection Hc as <-.
  pose proof (Discover_loop_records net ctx mrds {| devices := []; zones := ∅ |}
                (record_call (CallDiscoverDevices devPropertiesService) fx)
                loc dev zone Hin Hsonos Hans) as Hrec.
  unfold zone_devices in Hrec.
  destruct (zones _ !! zone) as [devs |] eqn:Hl; simpl in Hrec;
    [| by apply elem_of_nil in Hrec].
  split; [by exists devs |].
  intros Hav ctx0. unfold ZoneDevice. rewrite Hl.
  destruct (ZoneDevice_scan_some devs dev Hrec Hav) as [d Hd]. rewrite Hd. by exists d.
Qed.

(** ** The outcome of an operation *)

(** Every operation starts with one [soap] call, and all but
    [LoadSonosPlaylist] end with it. *)
Lemma perform_first net d ctx op fx :
  let first := soap net d ctx (service_of op) (action_of op).1 (action_of op).2 fx in
  match first.1 with
  | Err e => perform net d ctx op fx = (Some (Errorf (wrap_of op) [ArgErr e]), first.2)
  | Ok raw =>
      match op with
      | OpLoadSonosPlaylist playlistName =>
          perform net d ctx op fx =
            LoadSonosPlaylist_add net d ctx playlistName
              (env_Unmarshal net (field "Result" raw)).1 first.2
      | _ => perform net d ctx op fx = (None, first.2)
      end
  end.
Proof.
  destruct op; simpl;
    unfold Ungroup, ClearQueue, SetPlayMode, SetVolume, SetSleepTimer, Play,
      LoadSonosPlaylist, mbind, M_bind, Browse_in; cbv zeta;
    match goal with |- context [soap ?n ?d ?c ?t ?a ?i ?f] =>
      destruct (soap n d c t a i f) as [[raw | e] fx'] end; simpl; try reflexivity.
  destruct (env_Unmarshal net (field "Result" raw)) as [didl err]. reflexivity.
Qed.

(** X7: on a device that does not advertise the service an operation
    starts with, the operation makes no call and logs nothing: it returns the
    unknown-service error, under the message of the operation. *)
Theorem perform_unresolved (net : Env) (d : Device) (ctx : Context) (op : Operation)
    (fx : Effects) :
  goupnp.FindService (dev d) (service_of op) = [] →
  perform net d ctx op fx =
    (Some (Errorf (wrap_of op)
             [ArgErr (Errorf "unknown service %q for device" [ArgStr (service_of op)])]),
     fx).
Proof.
  intros Hno. pose proof (perform_first net d ctx op fx) as Hp. cbv zeta in Hp.
  assert (Hsoap : soap net d ctx (service_of op) (action_of op).1 (action_of op).2 fx =
                  (Err (Errorf "unknown service %q for device" [ArgStr (service_of op)]), fx)).
  { apply soap_unresolved. unfold serviceClient. by rewrite Hno. }
  rewrite Hsoap in Hp. exact Hp.
Qed.

Lemma answers_ok_app net history new1 new2 :
  answers_ok net history (new1 ++ new2) ↔
  answers_ok net history new1 ∧ answers_ok net (history ++ new1) new2.
Proof.
  revert history. induction new1 as [| call new1 IH]; intros history; simpl.
  - rewrite app_nil_r. tauto.
  - rewrite IH, <- app_assoc. simpl. tauto.
Qed.

(** What one [soap] call leaves: no call and the error of the resolution,
    or one call and what the library answered to it. *)
Lemma soap_outcome net d ctx serviceType action inAction fx :
  let r := soap net d ctx serviceType action inAction fx in
  logged r.2 = logged fx ∧
  match r.1 with
  | Ok resp =>
      ∃ sc, calls r.2 = calls fx ++ [CallPerformActionCtx ctx sc serviceType action inAction] ∧
            env_PerformAction net (calls fx) ctx sc serviceType action inAction = Ok resp
  | Err e =>
      (calls r.2 = calls fx ∧
       e = Errorf "unknown service %q for device" [ArgStr serviceType]) ∨
      (∃ sc, calls r.2 = calls fx ++ [CallPerformActionCtx ctx sc serviceType action inAction] ∧
             env_PerformAction net (calls fx) ctx sc serviceType action inAction = Err e)
  end.
Proof.
  unfold soap, serviceClient.
  destruct (goupnp.FindService (dev d) serviceType) as [| svc rest]; simpl.
  { split; [reflexivity |]. left. by split. }
  split; [reflexivity |].
  destruct (env_PerformAction net (calls fx) ctx (NewSOAPClient svc) serviceType action
              inAction) as [resp | e] eqn:Hr.
  - by exists (NewSOAPClient svc).
  - right. by exists (NewSOAPClient svc).
Qed.

Lemma LoadSonosPlaylist_add_outcome net d ctx playlistName didl fx0 pre fx :
  calls fx = calls fx0 ++ pre → pre ≠ [] → answers_ok net (calls fx0) pre →
  let r := LoadSonosPlaylist_add net d ctx playlistName didl fx in
  ∃ new, calls r.2 = calls fx0 ++ new ∧ logged r.2 = logged fx ∧ outcome net fx0 new r.1.
Proof.
  intros Hfx Hne Hpre. unfold LoadSonosPlaylist_add.
  destruct (decide (LoadSonosPlaylist_uri didl playlistName = "")); simpl.
  { exists pre. split; [exact Hfx |]. split; [reflexivity |]. left.
    eexists _, _. split; [reflexivity | exact Hpre]. }
  unfold mbind, M_bind.
  pose proof (soap_outcome net d ctx av1.URN_AVTransport_1 "AddURIToQueue"
                (AddURIToQueue_in (LoadSonosPlaylist_uri didl playlistName)) fx) as [Hlog Hs].
  unfold AddURIToQueue_in in *.
  destruct (soap net d ctx av1.URN_AVTransport_1 "AddURIToQueue" _ fx) as [[resp | e] fx'];
    simpl in *.
  - destruct Hs as [sc [Hc Hr]]. eexists. rewrite Hc, Hfx, <- app_assoc.
    split; [reflexivity |]. split; [exact Hlog |]. split.
    + intros Hnil. apply app_eq_nil in Hnil as [_ Hnil]. discriminate.
    + apply answers_ok_app. split; [exact Hpre |]. simpl. rewrite <- Hfx. split; [| exact I].
      by exists resp.
  - destruct Hs as [[Hc ->] | [sc [Hc Hr]]].
    + exists pre. rewrite Hc. split; [exact Hfx |]. split; [exact Hlog |].
      right. left. eexists _, _. split; [reflexivity | exact Hpre].
    + eexists. rewrite Hc, Hfx, <- app_assoc. split; [reflexivity |].
      split; [exact Hlog |]. right. right.
      eexists _, e, pre, _, _, _, _, _. split; [reflexivity |]. split; [reflexivity |].
      split; [exact Hpre |]. rewrite <- Hfx. exact Hr.
Qed.

(** X8: a control operation only adds calls, and logs nothing.  When it
    returns nil it has made a call, and every call it made was answered
    without error.  When it returns an error, either the playlist was not found
    or a service was not, every call made having been answered, or the error
    holds, under a message, the very error that the library gave to the last
    call, the calls before it having been answered. *)
Theorem perform_outcome (net : Env) (d : Device) (ctx : Context) (op : Operation)
    (fx : Effects) :
  ∃ new,
    calls (perform net d ctx op fx).2 = calls fx ++ new ∧
    logged (perform net d ctx op fx).2 = logged fx ∧
    outcome net fx new (perform net d ctx op fx).1.
Proof.
  pose proof (perform_first net d ctx op fx) as Hp. cbv zeta in Hp.
  pose proof (soap_outcome net d ctx (service_of op) (action_of op).1 (action_of op).2 fx)
    as [Hlog Hs].
  destruct (soap net d ctx (service_of op) (action_of op).1 (action_of op).2 fx)
    as [[raw | e] fx']; simpl in *.
  - destruct Hs as [sc [Hc Hr]].
    assert (Hone : answers_ok net (calls fx)
                     [CallPerformActionCtx ctx sc (service_of op) (action_of op).1
                        (action_of op).2]).
    { simpl. split; [by exists raw | exact I]. }
    destruct op;
      try (rewrite Hp; simpl; eexists; split; [exact Hc |]; split; [exact Hlog |];
           split; [discriminate | exact Hone]).
    rewrite Hp.
    destruct (LoadSonosPlaylist_add_outcome net d ctx playlistName
                (env_Unmarshal net (field "Result" raw)).1 fx _ fx' Hc
                ltac:(discriminate) Hone) as [new [Hc' [Hlog' Hout]]].
    exists new. split; [exact Hc' |]. split; [by rewrite Hlog' | exact Hout].
  - rewrite Hp. simpl. destruct Hs as [[Hc ->] | [sc [Hc Hr]]].
    + exists []. rewrite app_nil_r. split; [exact Hc |]. split; [exact Hlog |].
      right. left. eexists _, _. split; [reflexivity | exact I].
    + eexists. split; [exact Hc |]. split; [exact Hlog |]. right. right.
      eexists _, e, [], _, _, _, _, _. split; [reflexivity |]. split; [reflexivity |].
      split; [exact I |]. rewrite app_nil_r. exact Hr.
Qed.

(** X9: on a handle that [ZoneDevice] returned, an operation of the AV1
    service never fails for want of the service: it makes one call, its
    action on the first AV1 service of the device, a device of the zone, and
    returns nil exactly when that call is answered without error. *)
Theorem ZoneDevice_handle_operations (c : Client) (ctx0 : Context) (zone : string)
    (d : Device) (op : Operation) :
  ZoneDevice c ctx0 zone = Ok d →
  service_of op = av1.URN_AVTransport_1 →
  ∃ devs svc rest,
    zones c !! zone = Some devs ∧ dev d ∈ devs ∧
    goupnp.FindService (dev d) av1.URN_AVTransport_1 = svc :: rest ∧
    ∀ net ctx fx,
      let call := CallPerformActionCtx ctx (NewSOAPClient svc) av1.URN_AVTransport_1
                    (action_of op).1 (action_of op).2 in
      calls (perform net d ctx op fx).2 = calls fx ++ [call] ∧
      ((perform net d ctx op fx).1 = None ↔ answered_ok net (calls fx) call).
Proof.
  intros Hz Hop. unfold ZoneDevice in Hz.
  destruct (zones c !! zone) as [devs |] eqn:Hl; [| discriminate].
  destruct (ZoneDevice_scan devs) as [d' |] eqn:Hscan; [| discriminate].
  injection Hz as ->.
  destruct (ZoneDevice_scan_AV1 devs d Hscan) as [Hin [sc Hsc]].
  unfold serviceClient in Hsc.
  destruct (goupnp.FindService (dev d) av1.URN_AVTransport_1) as [| svc rest] eqn:Hf;
    [discriminate |].
  exists devs, svc, rest. split; [reflexivity |]. split; [exact Hin |].
  split; [reflexivity |]. intros net ctx fx call.
  pose proof (perform_first net d ctx op fx) as Hp. cbv zeta in Hp.
  rewrite Hop in Hp.
  rewrite (soap_resolved net d ctx _ _ _ (NewSOAPClient svc) fx) in Hp
    by (unfold serviceClient; by rewrite Hf).
  simpl in Hp. subst call. simpl.
  destruct (env_PerformAction net (calls fx) ctx (NewSOAPClient svc) av1.URN_AVTransport_1
              (action_of op).1 (action_of op).2) as [resp | e] eqn:Hr.
  - destruct op; try discriminate Hop; rewrite Hp; simpl;
      (split; [reflexivity | split; [intros _; by exists resp | reflexivity]]).
  - rewrite Hp. simpl. split; [reflexivity |]. split; [discriminate | intros [resp [=]]].
Qed.

(** ** The calls of LoadSonosPlaylist *)

(** The locator the loop leaves in [uri], when it is not empty, is the one
    of the first entry with the title. *)
Lemma LoadSonosPlaylist_uri_found (didl : list Container) (playlistName : string) :
  LoadSonosPlaylist_uri didl playlistName ≠ "" →
  ∃ pre c post,
    didl = pre ++ c :: post ∧
    Forall (λ x, Title x ≠ playlistName) pre ∧
    Title c = playlistName ∧
    Res c = LoadSonosPlaylist_uri didl playlistName.
Proof.
  induction didl as [| x didl IH]; simpl; [done |].
  destruct (String.eqb_spec (Title x) playlistName) as [Heq | Hne].
  - intros _. exists [], x, didl. by repeat split.
  - intros Huri. destruct (IH Huri) as [pre [c [post [-> [Hpre [Hc Hres]]]]]].
    exists (x :: pre), c, post. repeat split; [by constructor | exact Hc | exact Hres].
Qed.

(** X10: [LoadSonosPlaylist] makes no call, or the Browse alone, or the
    Browse and then one AddURIToQueue; in the last case the Browse was
    answered, and the URI enqueued is the locator, not empty, of the first
    entry of the decoded listing that has the requested title.  It never
    enqueues an empty URI, nor the locator of an entry with another title, nor
    anything after a Browse that failed. *)
Theorem LoadSonosPlaylist_calls (net : Env) (d : Device) (ctx : Context)
    (playlistName : string) (fx : Effects) :
  ∃ new,
    calls (LoadSonosPlaylist net d ctx playlistName fx).2 = calls fx ++ new ∧
    (new = [] ∨
     (∃ sc, new = [CallPerformActionCtx ctx sc av1.URN_ContentDirectory_1 "Browse"
                     Browse_in]) ∨
     (∃ sc raw pre c post sc',
        new = [CallPerformActionCtx ctx sc av1.URN_ContentDirectory_1 "Browse" Browse_in;
               CallPerformActionCtx ctx sc' av1.URN_AVTransport_1 "AddURIToQueue"
                 (AddURIToQueue_in (Res c))] ∧
        env_PerformAction net (calls fx) ctx sc av1.URN_ContentDirectory_1 "Browse"
          Browse_in = Ok raw ∧
        (env_Unmarshal net (field "Result" raw)).1 = pre ++ c :: post ∧
        Forall (λ x, Title x ≠ playlistName) pre ∧
        Title c = playlistName ∧
        Res c ≠ "")).
Proof.
  unfold LoadSonosPlaylist, mbind, M_bind.
  unfold soap at 1. unfold serviceClient.
  destruct (goupnp.FindService (dev d) av1.URN_ContentDirectory_1) as [| svc rest]; simpl.
  { exists []. rewrite app_nil_r. split; [reflexivity | by left]. }
  fold Browse_in.
  destruct (env_PerformAction net (calls fx) ctx (NewSOAPClient svc)
              av1.URN_ContentDirectory_1 "Browse" Browse_in) as [raw | e] eqn:Hraw; simpl.
  2:{ eexists. split; [reflexivity |]. right. left. by eexists. }
  destruct (env_Unmarshal net (field "Result" raw)) as [didl err] eqn:Hxml.
  unfold LoadSonosPlaylist_add.
  destruct (decide (LoadSonosPlaylist_uri didl playlistName = "")) as [Hnil | Huri]; simpl.
  { eexists. split; [reflexivity |]. right. left. by eexists. }
  destruct (LoadSonosPlaylist_uri_found didl playlistName Huri)
    as [pre [c [post [Hd [Hpre [Hc Hres]]]]]].
  unfold mbind, M_bind, soap, serviceClient.
  destruct (goupnp.FindService (dev d) av1.URN_AVTransport_1) as [| svc' rest']; simpl.
  { eexists. split; [reflexivity |]. right. left. by eexists. }
  fold (AddURIToQueue_in (LoadSonosPlaylist_uri didl playlistName)).
  exists [CallPerformActionCtx ctx (NewSOAPClient svc) av1.URN_ContentDirectory_1 "Browse"
            Browse_in;
          CallPerformActionCtx ctx (NewSOAPClient svc') av1.URN_AVTransport_1
            "AddURIToQueue" (AddURIToQueue_in (Res c))].
  split.
  - rewrite Hres.
    destruct (env_PerformAction net _ ctx (NewSOAPClient svc') _ _ _); simpl;
      by rewrite <- app_assoc.
  - right. right. exists (NewSOAPClient svc), raw, pre, c, post, (NewSOAPClient svc').
    split; [reflexivity |]. split; [exact Hraw |]. rewrite Hxml. simpl.
    split; [exact Hd |]. split; [exact Hpre |]. split; [exact Hc |]. by rewrite Hres.
Qed.

(** ** The two revisions *)

(** X12: [ZoneDevice] of the earlier revision returns a handle on the first
    device of the zone that has the AV1 service, with the client of the first
    such service of that device; when no device of the zone has it, and so for
    a zone that is no key, it fails with the error that no AV1 service was
    found in the zone. *)
Theorem sonos_go_ZoneDevice_spec (c : Client) (ctx : Context) (zone : string) :
  (∀ pre d post svc rest,
     zone_devices c zone = pre ++ d :: post →
     Forall (λ x, goupnp.FindService x av1.URN_AVTransport_1 = []) pre →
     goupnp.FindService d av1.URN_AVTransport_1 = svc :: rest →
     sonos_go.ZoneDevice c ctx zone =
       Ok {| sonos_go.dev := d; sonos_go.av1 := NewSOAPClient svc |}) ∧
  (Forall (λ x, goupnp.FindService x av1.URN_AVTransport_1 = []) (zone_devices c zone) →
     sonos_go.ZoneDevice c ctx zone =
       Err (Errorf "did not find an AV1 service in zone %q" [ArgStr zone])) ∧
  (zones c !! zone = None →
     sonos_go.ZoneDevice c ctx zone =
       Err (Errorf "did not find an AV1 service in zone %q" [ArgStr zone])).
Proof.
  unfold sonos_go.ZoneDevice. split; [| split].
  - intros pre d post svc rest -> Hpre Hd.
    assert (Hscan : sonos_go.ZoneDevice_scan (pre ++ d :: post) =
                    Some {| sonos_go.dev := d; sonos_go.av1 := NewSOAPClient svc |}).
    { induction Hpre as [| x pre Hx _ IH]; simpl; [by rewrite Hd | by rewrite Hx]. }
    by rewrite Hscan.
  - intros Hall.
    assert (Hscan : sonos_go.ZoneDevice_scan (zone_devices c zone) = None).
    { induction Hall as [| x devs Hx _ IH]; simpl; [reflexivity | by rewrite Hx]. }
    by rewrite Hscan.
  - intros Hl. unfold zone_devices. by rewrite Hl.
Qed.

(** X13: for a zone that is a key the two revisions agree: both fail, with
    the same error, or both return a handle on the same device; the client the
    earlier revision keeps in its handle is the one the later revision resolves
    at each call, and [Ungroup] of the one does what [Ungroup] of the other
    does. *)
Theorem sonos_go_agrees (c : Client) (ctx0 : Context) (zone : string)
    (devs : list goupnp.Device) :
  zones c !! zone = Some devs →
  match ZoneDevice c ctx0 zone, sonos_go.ZoneDevice c ctx0 zone with
  | Ok d, Ok d' =>
      dev d = sonos_go.dev d' ∧
      serviceClient (dev d) av1.URN_AVTransport_1 = Ok (sonos_go.av1 d') ∧
      ∀ net ctx fx, sonos_go.Ungroup net d' ctx fx = Ungroup net d ctx fx
  | Err e, Err e' => e = e'
  | _, _ => False
  end.
Proof.
  intros Hl. unfold ZoneDevice, sonos_go.ZoneDevice, zone_devices. rewrite Hl. simpl.
  clear Hl. induction devs as [| x devs IH]; simpl; [reflexivity |].
  unfold serviceClient at 1.
  destruct (goupnp.FindService x av1.URN_AVTransport_1) as [| svc rest] eqn:Hf;
    [exact IH |].
  simpl. split; [reflexivity |].
  assert (Hsc : serviceClient x av1.URN_AVTransport_1 = Ok (NewSOAPClient svc))
    by (unfold serviceClient; by rewrite Hf).
  split; [exact Hsc |]. intros net ctx fx.
  unfold sonos_go.Ungroup, Ungroup, soap. simpl. by rewrite Hsc.
Qed.

(** ** The sleep timer read back *)

Lemma split_colon_digits (u : Decimal.uint) (rest : string) :
  split_colon (NilEmpty.string_of_uint u +:+ String ":" rest) =
    (NilEmpty.string_of_uint u, rest).
Proof. induction u as [| u IH | u IH | u IH | u IH | u IH | u IH | u IH | u IH | u IH | u IH];
  simpl; [reflexivity | by rewrite IH ..]. Qed.

(** The digits of a number that is not negative. *)
Lemma Itoa_digits (n : Z) :
  0 ≤ n → ∃ u, u ≠ Decimal.Nil ∧ Itoa n = NilEmpty.string_of_uint u.
Proof.
  intros Hn. unfold Itoa. destruct n as [| p | p]; [| | lia]; simpl.
  - by exists (Decimal.D0 Decimal.Nil).
  - exists (Pos.to_uint p). pose proof (DecimalPos.Unsigned.to_uint_nonnil p) as Hnn.
    split; [exact Hnn |]. unfold NilZero.string_of_uint.
    by destruct (Pos.to_uint p).
Qed.

Lemma read_decimal_zero (u : Decimal.uint) :
  u ≠ Decimal.Nil →
  read_decimal (String "0" (NilEmpty.string_of_uint u)) =
    read_decimal (NilEmpty.string_of_uint u).
Proof.
  intros Hu. unfold read_decimal.
  destruct u; [done | ..]; simpl;
    match goal with |- context [NilEmpty.uint_of_string ?s] =>
      destruct (NilEmpty.uint_of_string s) end; reflexivity.
Qed.

Lemma fmt_02d_digits (n : Z) :
  0 ≤ n →
  (∃ u, fmt_02d n = NilEmpty.string_of_uint u) ∧ read_decimal (fmt_02d n) = Some n.
Proof.
  intros Hn. destruct (Itoa_digits n Hn) as [u [Hu Hs]].
  pose proof (Itoa_decimal n) as Hread. fold (read_decimal (Itoa n)) in Hread.
  unfold fmt_02d. cbv zeta. destruct (String.length (Itoa n) <? 2)%nat.
  - rewrite Hs. split; [by exists (Decimal.D0 u) |].
    change ("0" +:+ NilEmpty.string_of_uint u)
      with (String "0" (NilEmpty.string_of_uint u)).
    rewrite read_decimal_zero by exact Hu. by rewrite <- Hs.
  - split; [by exists u | exact Hread].
Qed.

(** X11: the string of [SetSleepTimer] is empty exactly for the durations
    that are not positive.  For a positive duration, its three numbers read
    back as hours, minutes and seconds give the duration in whole seconds; so
    two positive durations give the same string exactly when they have the same
    whole seconds. *)
Theorem SetSleepTimer_dur_read_back (d : Z) :
  int64_range d →
  (SetSleepTimer_dur d = "" ↔ d ≤ 0) ∧
  (0 < d → read_hms (SetSleepTimer_dur d) = Some (d / time.Second)) ∧
  (∀ d', int64_range d' → 0 < d → 0 < d' →
         (SetSleepTimer_dur d = SetSleepTimer_dur d' ↔
          d / time.Second = d' / time.Second)).
Proof.
  intros Hr.
  assert (Hback : ∀ x, int64_range x → 0 < x →
                       read_hms (SetSleepTimer_dur x) = Some (x / time.Second)).
  { intros x Hx Hpos. rewrite SetSleepTimer_dur_positive by assumption.
    destruct (duration_parts x ltac:(lia)) as [Hhh [Hmm [Hss Hrest]]].
    destruct (fmt_02d_digits (x / time.Hour) Hhh) as [[uh Huh] Hrh].
    destruct (fmt_02d_digits (x mod time.Hour / time.Minute) ltac:(lia)) as [[um Hum] Hrm].
    destruct (fmt_02d_digits (x mod time.Minute / time.Second) ltac:(lia)) as [_ Hrs].
    unfold read_hms.
    change (fmt_02d (x / time.Hour) +:+ ":" +:+
            fmt_02d (x mod time.Hour / time.Minute) +:+ ":" +:+
            fmt_02d (x mod time.Minute / time.Second))
      with (fmt_02d (x / time.Hour) +:+
            String ":" (fmt_02d (x mod time.Hour / time.Minute) +:+
                        String ":" (fmt_02d (x mod time.Minute / time.Second)))).
    rewrite Huh, split_colon_digits, Hum, split_colon_digits, <- Huh, <- Hum.
    rewrite Hrh, Hrm, Hrs. simpl. f_equal.
    assert (HH : time.Hour = 3600 * time.Second) by reflexivity.
    assert (HM : time.Minute = 60 * time.Second) by reflexivity.
    assert (HS : time.Second = 1000000000) by reflexivity.
    apply (Z.div_unique_pos x time.Second _
             (x - (x / time.Hour * time.Hour + x mod time.Hour / time.Minute * time.Minute
                   + x mod time.Minute / time.Second * time.Second))); lia. }
  split; [| split].
  - split.
    + intros Hempty. destruct (Z.le_gt_cases d 0) as [Hle | Hpos]; [exact Hle |].
      pose proof (Hback d Hr Hpos) as Hb. rewrite Hempty in Hb. discriminate.
    + intros Hle. unfold SetSleepTimer_dur.
      destruct (Z.ltb_spec 0 d) as [Hlt | _]; [lia | reflexivity].
  - exact (Hback d Hr).
  - intros d' Hr' Hpos Hpos'. split.
    + intros Heq. pose proof (Hback d Hr Hpos) as Hb. rewrite Heq, Hback in Hb by assumption.
      by injection Hb.
    + intros Heq. rewrite !SetSleepTimer_dur_positive by assumption.
      assert (Hparts : ∀ x, 0 < x →
                x / time.Hour = x / time.Second / 3600 ∧
                x mod time.Hour / time.Minute = x / time.Second / 60 mod 60 ∧
                x mod time.Minute / time.Second = x / time.Second mod 60).
      { intros x Hx.
        change time.Hour with 3600000000000. change time.Minute with 60000000000.
        change time.Second with 1000000000.
        repeat split; Z.div_mod_to_equations; lia. }
      destruct (Hparts d Hpos) as [-> [-> ->]].
      destruct (Hparts d' Hpos') as [-> [-> ->]].
      by rewrite Heq.
Qed.

(** ** What ZoneDevice returned *)

Lemma ZoneDevice_scan_inv (devs : list goupnp.Device) :
  match ZoneDevice_scan devs with
  | Some d =>
      ∃ pre post,
        devs = pre ++ dev d :: post ∧
        Forall (λ x, goupnp.FindService x av1.URN_AVTransport_1 = []) pre ∧
        goupnp.FindService (dev d) av1.URN_AVTransport_1 ≠ []
  | None => Forall (λ x, goupnp.FindService x av1.URN_AVTransport_1 = []) devs
  end.
Proof.
  induction devs as [| x devs IH]; simpl; [constructor |].
  unfold serviceClient at 1.
  destruct (goupnp.FindService x av1.URN_AVTransport_1) as [| svc rest] eqn:Hf.
  - destruct (ZoneDevice_scan devs) as [d |].
    + destruct IH as [pre [post [-> [Hpre Hd]]]].
      exists (x :: pre), post. split; [reflexivity |]. split; [by constructor | exact Hd].
    + by constructor.
  - exists [], devs. simpl. split; [reflexivity |]. split; [constructor |].
    rewrite Hf. discriminate.
Qed.

(** X14: what [ZoneDevice] returned tells how the zone stands. *)
Theorem ZoneDevice_inversion (c : Client) (ctx : Context) (zone : string) :
  match ZoneDevice c ctx zone with
  | Ok d =>
      ∃ devs pre post,
        zones c !! zone = Some devs ∧
        devs = pre ++ dev d :: post ∧
        Forall (λ x, goupnp.FindService x av1.URN_AVTransport_1 = []) pre ∧
        goupnp.FindService (dev d) av1.URN_AVTransport_1 ≠ []
  | Err e =>
      (zones c !! zone = None ∧
       e = Errorf "unknown zone %q, or it has no devices" [ArgStr zone]) ∨
      (∃ devs,
         zones c !! zone = Some devs ∧
         Forall (λ x, goupnp.FindService x av1.URN_AVTransport_1 = []) devs ∧
         e = Errorf "did not find an AV1 service in zone %q" [ArgStr zone])
  end.
Proof.
  unfold ZoneDevice. destruct (zones c !! zone) as [devs |] eqn:Hl; [| by left].
  pose proof (ZoneDevice_scan_inv devs) as Hinv.
  destruct (ZoneDevice_scan devs) as [d |].
  - destruct Hinv as [pre [post [Hd [Hpre Hav]]]]. by exists devs, pre, post.
  - right. by exists devs.
Qed.

(** X15: a handle that [ZoneDevice] returns on the client of [Discover] is
    on a device of the flat list, one of the answers to the probe, whose
    manufacturer contains Sonos, Inc., which advertises the device-properties
    service and answered its zone query, and which has the AV1 service. *)
Theorem ZoneDevice_after_Discover (net : Env) (ctx : Context) (fx : Effects)
    (mrds : list goupnp.MaybeRootDevice) (c : Client) (ctx0 : Context) (zone : string)
    (d : Device) :
  env_DiscoverDevices net (calls fx) devPropertiesService = Ok mrds →
  (Discover net ctx fx).1 = Ok c →
  ZoneDevice c ctx0 zone = Ok d →
  dev d ∈ devices c ∧
  (∃ loc, goupnp.Probed loc (dev d) ∈ mrds) ∧
  (∃ pre post, goupnp.Manufacturer (dev d) = pre +:+ "Sonos, Inc." +:+ post) ∧
  goupnp.FindService (dev d) devPropertiesService ≠ [] ∧
  ¬ zone_query_fails net ctx (dev d) ∧
  goupnp.FindService (dev d) av1.URN_AVTransport_1 ≠ [].
Proof.
  intros Hprobe Hc Hz.
  unfold ZoneDevice in Hz.
  destruct (zones c !! zone) as [devs |] eqn:Hl; [| discriminate].
  pose proof (ZoneDevice_scan_inv devs) as Hinv.
  destruct (ZoneDevice_scan devs) as [d' |]; [| discriminate].
  injection Hz as ->. destruct Hinv as [pre [post [Hd [_ Hav]]]].
  assert (Hin : dev d ∈ devs).
  { rewrite Hd. apply elem_of_app. right. apply list_elem_of_here. }
  assert (Hans : ¬ zone_query_fails net ctx (dev d)).
  { exact (Discover_zones_answered net ctx fx c Hc zone devs (dev d) Hl Hin). }
  destruct (Discover_in_order net ctx fx mrds c Hprobe Hc) as [Hdev Hsub].
  assert (Hflat : dev d ∈ sonos_devices mrds).
  { exact (elem_of_sublist _ _ _ Hin (Hsub zone devs Hl)). }
  pose proof Hflat as Hs.
  apply elem_of_sonos_devices in Hs as [loc [Hm Hs]].
  apply Contains_spec in Hs as [pre' [post' Hs]].
  split; [by rewrite Hdev |]. split; [by exists loc |]. split; [by exists pre', post' |].
  split; [| split; [exact Hans | exact Hav]].
  intros Hno. apply Hans. unfold zone_query_fails. by rewrite Hno.
Qed.

(** ** The further properties, in the household *)

Lemma Sample_probe (browsed : string) (history : list Call) :
  env_DiscoverDevices (Sample.net browsed) history devPropertiesService = Ok Sample.answers.
Proof. reflexivity. Qed.

Lemma Sample_sonos_devices :
  sonos_devices Sample.answers =
    [Sample.bridge; Sample.kitchen; Sample.attic; Sample.boost].
Proof. reflexivity. Qed.

Lemma Discover_flat_list_witness :
  env_DiscoverDevices (Sample.net "") (calls no_effects) devPropertiesService =
    Ok Sample.answers ∧
  (Discover (Sample.net "") Sample.live no_effects).1 = Ok Sample.client ∧
  devices Sample.client = sonos_devices Sample.answers.
Proof.
  split; [reflexivity |]. split; [apply Sample_Discover |].
  exact (proj1 (Discover_flat_list (Sample.net "") Sample.live no_effects Sample.answers
                  Sample.client eq_refl (Sample_Discover ""))).
Defined.

Lemma Sample_NoDup : NoDup (sonos_devices Sample.answers).
Proof. rewrite Sample_sonos_devices. apply (bool_decide_unpack _). vm_compute. exact I. Qed.

Lemma Discover_zones_counted_witness :
  env_DiscoverDevices (Sample.net "") (calls no_effects) devPropertiesService =
    Ok Sample.answers ∧
  (Discover (Sample.net "") Sample.live no_effects).1 = Ok Sample.client ∧
  NoDup (sonos_devices Sample.answers) ∧
  (Sample.bridge ∉ [Sample.boost]).
Proof.
  split; [reflexivity |]. split; [apply Sample_Discover |].
  split; [exact Sample_NoDup |].
  refine (proj2 (proj2 (Discover_zones_counted (Sample.net "") Sample.live no_effects
                          Sample.answers Sample.client eq_refl (Sample_Discover ""))
                   Sample_NoDup)
            "Kitchen" "Hall" [Sample.bridge; Sample.kitchen] [Sample.boost] Sample.bridge
            _ eq_refl eq_refl _).
  - discriminate.
  - apply list_elem_of_here.
Defined.

Lemma Discover_logs_failures_witness :
  env_DiscoverDevices (Sample.net "") (calls no_effects) devPropertiesService =
    Ok Sample.answers ∧
  (Discover (Sample.net "") Sample.live no_effects).1 = Ok Sample.client ∧
  ∃ new,
    logged (Discover (Sample.net "") Sample.live no_effects).2 = logged no_effects ++ new ∧
    Forall Discover_log_line new ∧
    (length new + length (zone_entries (zones Sample.client)) =
     probe_failures Sample.answers +
     length (zone_queries Sample.live (sonos_devices Sample.answers)))%nat.
Proof.
  split; [reflexivity |]. split; [apply Sample_Discover |].
  exact (Discover_logs_failures (Sample.net "") Sample.live no_effects Sample.answers
           Sample.client eq_refl (Sample_Discover "")).
Defined.

Lemma Sample_kitchen_answers :
  zone_query_answers (Sample.net "") Sample.live Sample.kitchen "Kitchen".
Proof.
  eexists _, _. split; [reflexivity |]. intros history. eexists. split; reflexivity.
Qed.

Lemma Discover_zone_recorded_witness :
  env_DiscoverDevices (Sample.net "") (calls no_effects) devPropertiesService =
    Ok Sample.answers ∧
  (Discover (Sample.net "") Sample.live no_effects).1 = Ok Sample.client ∧
  zone_query_answers (Sample.net "") Sample.live Sample.kitchen "Kitchen" ∧
  ∃ devs, zones Sample.client !! "Kitchen" = Some devs ∧ Sample.kitchen ∈ devs.
Proof.
  split; [reflexivity |]. split; [apply Sample_Discover |].
  split; [exact Sample_kitchen_answers |].
  refine (proj1 (Discover_zone_recorded (Sample.net "") Sample.live no_effects
                   Sample.answers "http://10.0.0.4:1400/xml/device_description.xml"
                   Sample.kitchen "Kitchen" Sample.client eq_refl (Sample_Discover "")
                   _ eq_refl Sample_kitchen_answers)).
  unfold Sample.answers. do 3 apply list_elem_of_further. apply list_elem_of_here.
Defined.

Lemma perform_unresolved_witness :
  goupnp.FindService Sample.bridge (service_of OpPlay) = [] ∧
  perform (Sample.net "") {| dev := Sample.bridge |} Sample.live OpPlay no_effects =
    (Some (Errorf "playing: %w"
             [ArgErr (Errorf "unknown service %q for device"
                        [ArgStr av1.URN_AVTransport_1])]),
     no_effects).
Proof.
  split; [reflexivity |].
  exact (perform_unresolved (Sample.net "") {| dev := Sample.bridge |} Sample.live OpPlay
           no_effects eq_refl).
Defined.

Lemma ZoneDevice_handle_operations_witness :
  ZoneDevice Sample.client Sample.live "Kitchen" = Ok Sample.player ∧
  service_of OpClearQueue = av1.URN_AVTransport_1 ∧
  ∃ devs svc rest,
    zones Sample.client !! "Kitchen" = Some devs ∧ dev Sample.player ∈ devs ∧
    goupnp.FindService (dev Sample.player) av1.URN_AVTransport_1 = svc :: rest ∧
    ∀ net ctx fx,
      calls (perform net Sample.player ctx OpClearQueue fx).2 =
        calls fx ++ [CallPerformActionCtx ctx (NewSOAPClient svc) av1.URN_AVTransport_1
                       (action_of OpClearQueue).1 (action_of OpClearQueue).2] ∧
      ((perform net Sample.player ctx OpClearQueue fx).1 = None ↔
       answered_ok net (calls fx)
         (CallPerformActionCtx ctx (NewSOAPClient svc) av1.URN_AVTransport_1
            (action_of OpClearQueue).1 (action_of OpClearQueue).2)).
Proof.
  split; [reflexivity |]. split; [reflexivity |].
  exact (ZoneDevice_handle_operations Sample.client Sample.live "Kitchen" Sample.player
           OpClearQueue eq_refl eq_refl).
Defined.

Lemma SetSleepTimer_dur_read_back_witness :
  int64_range (90 * time.Second + 5) ∧
  read_hms (SetSleepTimer_dur (90 * time.Second + 5)) = Some 90.
Proof.
  assert (Hr : int64_range (90 * time.Second + 5)).
  { unfold int64_range. split; [discriminate | reflexivity]. }
  split; [exact Hr |].
  exact (proj1 (proj2 (SetSleepTimer_dur_read_back (90 * time.Second + 5) Hr)) eq_refl).
Defined.

Lemma sonos_go_agrees_witness :
  zones Sample.client !! "Kitchen" = Some [Sample.bridge; Sample.kitchen] ∧
  match ZoneDevice Sample.client Sample.live "Kitchen",
        sonos_go.ZoneDevice Sample.client Sample.live "Kitchen" with
  | Ok d, Ok d' =>
      dev d = sonos_go.dev d' ∧
      serviceClient (dev d) av1.URN_AVTransport_1 = Ok (sonos_go.av1 d') ∧
      ∀ net ctx fx, sonos_go.Ungroup net d' ctx fx = Ungroup net d ctx fx
  | Err e, Err e' => e = e'
  | _, _ => False
  end.
Proof.
  split; [reflexivity |].
  exact (sonos_go_agrees Sample.client Sample.live "Kitchen" _ eq_refl).
Defined.

Lemma ZoneDevice_after_Discover_witness :
  env_DiscoverDevices (Sample.net "") (calls no_effects) devPropertiesService =
    Ok Sample.answers ∧
  (Discover (Sample.net "") Sample.live no_effects).1 = Ok Sample.client ∧
  ZoneDevice Sample.client Sample.cancelled "Kitchen" = Ok Sample.player ∧
  dev Sample.player ∈ devices Sample.client.
Proof.
  split; [reflexivity |]. split; [apply Sample_Discover |]. split; [reflexivity |].
  exact (proj1 (ZoneDevice_after_Discover (Sample.net "") Sample.live no_effects
                  Sample.answers Sample.client Sample.cancelled "Kitchen" Sample.player
                  eq_refl (Sample_Discover "") eq_refl)).
Defined.
